(** * APK Builder GUI: the command pipeline orchestrator of [app.py]

    A shallow embedding of the decision logic of [ApkBuilderGUI]:
    the planner [start_mode], the wrapping function [wrap], the runner
    [execute_next] / [on_output] / [on_finished] / [on_process_error]
    and the clean-up performed when the queue is drained.

    Conventions.
    - A Python [str] is a [string]; its characters are the UTF-8 code
      units, whose lexicographic order coincides with Python's code
      point order.
    - [os.path] is [posixpath] (the module is written after CPython's
      [posixpath.py] and [genericpath.py]).
    - The values stored in the settings dictionary are strings, as the
      UI callbacks write them.
    - Everything the program does to the outside world is recorded, in
      order, in an effect log. *)

From Stdlib Require Import Ascii String List ZArith Lia Bool.
From stdpp Require Import base option list gmap strings pretty.

(** ** Python string methods *)

Module PyStr.

Definition chars (s : string) : list ascii := list_ascii_of_string s.
Definition str (l : list ascii) : string := string_of_list_ascii l.

Definition dquote : ascii := "034"%char.

(** [c in s] for a one-character [c]. *)
Definition contains (c : ascii) (s : string) : bool :=
  existsb (Ascii.eqb c) (chars s).

(** [s.startswith(p)] and [s.endswith(p)]. *)
Definition startswith (s p : string) : bool := String.prefix p s.

Definition endswith (s p : string) : bool :=
  String.prefix (String.rev p) (String.rev s).

(** [s.lower()] on the ASCII letters. *)
Definition lower_char (c : ascii) : ascii :=
  let n := nat_of_ascii c in
  if (65 <=? n)%nat && (n <=? 90)%nat then ascii_of_nat (n + 32) else c.

Definition lower (s : string) : string := str (map lower_char (chars s)).

(** [str.isspace] on the ASCII range: TAB, LF, VT, FF, CR,
    the separators 0x1c..0x1f and the space. *)
Definition isspace (c : ascii) : bool :=
  let n := nat_of_ascii c in
  ((9 <=? n)%nat && (n <=? 13)%nat) || ((28 <=? n)%nat && (n <=? 32)%nat).

(** Truth value of [s.strip()]: some character is not white space. *)
Definition strip_nonempty (s : string) : bool :=
  existsb (fun c => negb (isspace c)) (chars s).

(** [sep.join(l)]. *)
Definition join (sep : string) (l : list string) : string :=
  String.concat sep l.

(** Truth value of a string, and of a string-or-[None]. *)
Definition truthy (s : string) : bool := negb (String.eqb s "").

Definition truthy_opt (o : option string) : bool :=
  match o with Some s => truthy s | None => false end.

(** [sorted(l, reverse=True)]: insertion into a descending list. *)
Fixpoint insert_desc (x : string) (l : list string) : list string :=
  match l with
  | [] => [x]
  | y :: t => if String.leb y x then x :: l else y :: insert_desc x t
  end.

Definition sorted_reverse (l : list string) : list string :=
  fold_right insert_desc [] l.

End PyStr.

(** ** [os.path] on POSIX *)

Module os_path.

Definition sep : ascii := "/"%char.
Definition extsep : ascii := "."%char.

(** [p.rfind(c) + 1]: the position just after the last [c], or [0]. *)
Fixpoint after_last (c : ascii) (p : list ascii) : nat :=
  match p with
  | [] => 0
  | x :: t =>
      match after_last c t with
      | 0 => if Ascii.eqb x c then 1 else 0
      | S k => S (S k)
      end
  end.

(** [p.rstrip(c)]. *)
Fixpoint rstrip (c : ascii) (p : list ascii) : list ascii :=
  match p with
  | [] => []
  | x :: t =>
      match rstrip c t with
      | [] => if Ascii.eqb x c then [] else [x]
      | r => x :: r
      end
  end.

Definition all_sep (p : list ascii) : bool := forallb (Ascii.eqb sep) p.

Definition basename_l (p : list ascii) : list ascii :=
  drop (after_last sep p) p.

Definition dirname_l (p : list ascii) : list ascii :=
  let head := take (after_last sep p) p in
  match head with
  | [] => head
  | _ => if all_sep head then head else rstrip sep head
  end.

(** [genericpath._splitext(p, '/', None, '.')]. *)
Definition splitext_l (p : list ascii) : list ascii * list ascii :=
  let sep1 := after_last sep p in
  let dot1 := after_last extsep p in
  if (sep1 <? dot1)%nat
     && existsb (fun c => negb (Ascii.eqb c extsep))
                (take (dot1 - 1 - sep1) (drop sep1 p))
  then (take (dot1 - 1) p, drop (dot1 - 1) p)
  else (p, []).

(** [join(a, b)]: one step of the loop of [posixpath.join]. *)
Definition join2_l (a b : list ascii) : list ascii :=
  match b with
  | c :: _ =>
      if Ascii.eqb c sep then b
      else match a with
           | [] => a ++ b
           | _ => if Ascii.eqb (List.last a "000"%char) sep
                  then a ++ b else a ++ sep :: b
           end
  | [] =>
      match a with
      | [] => a
      | _ => if Ascii.eqb (List.last a "000"%char) sep
             then a else a ++ [sep]
      end
  end.

(** [p.split('/')]. *)
Fixpoint split_sep (p : list ascii) : list (list ascii) :=
  match p with
  | [] => [[]]
  | x :: t =>
      if Ascii.eqb x sep then [] :: split_sep t
      else match split_sep t with
           | h :: r => (x :: h) :: r
           | [] => [[x]]
           end
  end.

(** ['/'.join(comps)]. *)
Fixpoint join_sep (comps : list (list ascii)) : list ascii :=
  match comps with
  | [] => []
  | [c] => c
  | c :: r => c ++ sep :: join_sep r
  end.

Definition dot : list ascii := ["."%char].
Definition dotdot : list ascii := ["."%char; "."%char].

Definition is_nil {A} (l : list A) : bool :=
  match l with [] => true | _ => false end.

Definition comp_eqb (a b : list ascii) : bool :=
  bool_decide (a = b).

(** The number of leading slashes [normpath] keeps: 0, 1 or 2. *)
Definition initial_slashes (p : list ascii) : nat :=
  match p with
  | "/"%char :: "/"%char :: "/"%char :: _ => 1
  | "/"%char :: "/"%char :: _ => 2
  | "/"%char :: _ => 1
  | _ => 0
  end.

(** One iteration of the loop of [normpath] over the components. *)
Definition norm_step (slashes : nat) (new_comps : list (list ascii))
    (comp : list ascii) : list (list ascii) :=
  if is_nil comp || comp_eqb comp dot then new_comps
  else if negb (comp_eqb comp dotdot)
          || (Nat.eqb slashes 0 && is_nil new_comps)
          || (negb (is_nil new_comps)
              && comp_eqb (List.last new_comps []) dotdot)
  then new_comps ++ [comp]
  else removelast new_comps.

Definition normpath_l (p : list ascii) : list ascii :=
  match p with
  | [] => dot
  | _ =>
      let slashes := initial_slashes p in
      let comps := fold_left (norm_step slashes) (split_sep p) [] in
      let path := repeat sep slashes ++ join_sep comps in
      match path with [] => dot | _ => path end
  end.

Import PyStr.

Definition basename (p : string) : string := str (basename_l (chars p)).
Definition dirname (p : string) : string := str (dirname_l (chars p)).
Definition splitext (p : string) : string * string :=
  let r := splitext_l (chars p) in (str (fst r), str (snd r)).
Definition join2 (a b : string) : string :=
  str (join2_l (chars a) (chars b)).
Definition join (a : string) (ps : list string) : string :=
  fold_left join2 ps a.
Definition normpath (p : string) : string := str (normpath_l (chars p)).

End os_path.

(** ** The machine: the GUI object, its environment and the effect log *)

(** Python exceptions that the modelled code can raise. *)
Inductive exn :=
| KeyError (key : string)
| IndexError
| TypeError
| FileNotFoundError (path : string)
| NotADirectoryError (path : string)
| FileExistsError (path : string)
| PermissionError (path : string).

Inductive result (A : Type) :=
| Ok (a : A)
| Raise (e : exn).
Arguments Ok {A} a.
Arguments Raise {A} e.

(** The three pages of [self.stack]. *)
Inductive mode := Dump | Pack | KeystoreGen.

#[global] Instance mode_eq_dec : EqDecision mode.
Proof. solve_decision. Defined.

Definition currentIndex (m : mode) : nat :=
  match m with Dump => 0 | Pack => 1 | KeystoreGen => 2 end.

(** What lies at a path: a regular file (which the operating system may
    refuse to unlink) or a directory. *)
Inductive node := File (protected : bool) | Dir.

#[global] Instance node_eq_dec : EqDecision node.
Proof. solve_decision. Defined.

Inductive icon := Critical | Warning | Information.

Inductive effect :=
| MessageBox (i : icon) (title text : string)
| ConsoleClear
| ConsoleAppend (text : string)
| ConfigWrite (data : gmap string string)
| MakeDirs (path : string)
| Remove (path : string)
| ProcessStart (program : string) (arguments : list string).

(** State of the [QProcess] object held in [self.process]. *)
Inductive qprocess := NotRunning | Running.

(** The attributes of [ApkBuilderGUI] that the orchestrator uses. *)
Record gui := {
  settings : gmap string string;
  page : mode;
  run_enabled : bool;
  commands : list (list string);
  current_index : nat;
  built_apk : option string;
  aligned_apk : option string;
  process : option qprocess
}.

(** The environment: the search path seen by [shutil.which],
    [platform.system()], the file system (keyed by the spelling of the
    path), the parsed content of the configuration file when it holds a
    dictionary, and the error met when that file cannot be written. *)
Record os := {
  search_path : gmap string string;
  system : string;
  nodes : gmap string node;
  config : option (gmap string string);
  config_error : option string
}.

Record machine := {
  ui : gui;
  env : os;
  log : list effect
}.

Definition with_ui (f : gui -> gui) (m : machine) : machine :=
  {| ui := f (ui m); env := env m; log := log m |}.

Definition with_env (f : os -> os) (m : machine) : machine :=
  {| ui := ui m; env := f (env m); log := log m |}.

Definition emit (e : effect) (m : machine) : machine :=
  {| ui := ui m; env := env m; log := log m ++ [e] |}.

Definition set_run_enabled (b : bool) (g : gui) : gui :=
  {| settings := settings g; page := page g; run_enabled := b;
     commands := commands g; current_index := current_index g;
     built_apk := built_apk g; aligned_apk := aligned_apk g;
     process := process g |}.

Definition set_commands (c : list (list string)) (g : gui) : gui :=
  {| settings := settings g; page := page g; run_enabled := run_enabled g;
     commands := c; current_index := current_index g;
     built_apk := built_apk g; aligned_apk := aligned_apk g;
     process := process g |}.

Definition set_current_index (i : nat) (g : gui) : gui :=
  {| settings := settings g; page := page g; run_enabled := run_enabled g;
     commands := commands g; current_index := i;
     built_apk := built_apk g; aligned_apk := aligned_apk g;
     process := process g |}.

Definition set_built_apk (p : option string) (g : gui) : gui :=
  {| settings := settings g; page := page g; run_enabled := run_enabled g;
     commands := commands g; current_index := current_index g;
     built_apk := p; aligned_apk := aligned_apk g;
     process := process g |}.

Definition set_aligned_apk (p : option string) (g : gui) : gui :=
  {| settings := settings g; page := page g; run_enabled := run_enabled g;
     commands := commands g; current_index := current_index g;
     built_apk := built_apk g; aligned_apk := p;
     process := process g |}.

Definition set_process (p : option qprocess) (g : gui) : gui :=
  {| settings := settings g; page := page g; run_enabled := run_enabled g;
     commands := commands g; current_index := current_index g;
     built_apk := built_apk g; aligned_apk := aligned_apk g;
     process := p |}.

Definition set_page (p : mode) (g : gui) : gui :=
  {| settings := settings g; page := p; run_enabled := run_enabled g;
     commands := commands g; current_index := current_index g;
     built_apk := built_apk g; aligned_apk := aligned_apk g;
     process := process g |}.

Definition set_settings (s : gmap string string) (g : gui) : gui :=
  {| settings := s; page := page g; run_enabled := run_enabled g;
     commands := commands g; current_index := current_index g;
     built_apk := built_apk g; aligned_apk := aligned_apk g;
     process := process g |}.

Definition set_nodes (n : gmap string node) (o : os) : os :=
  {| search_path := search_path o; system := system o; nodes := n;
     config := config o; config_error := config_error o |}.

Definition set_config (c : option (gmap string string)) (o : os) : os :=
  {| search_path := search_path o; system := system o; nodes := nodes o;
     config := c; config_error := config_error o |}.

(** ** A state and exception monad: a method runs on the machine and
    either returns or raises, keeping the changes made so far. *)

Definition M (A : Type) : Type := machine -> machine * result A.

Definition ret {A} (a : A) : M A := fun m => (m, Ok a).

Definition raise {A} (e : exn) : M A := fun m => (m, Raise e).

Definition bind {A B} (c : M A) (k : A -> M B) : M B :=
  fun m =>
    match c m with
    | (m', Ok a) => k a m'
    | (m', Raise e) => (m', Raise e)
    end.

Definition gets {A} (f : machine -> A) : M A := fun m => (m, Ok (f m)).

Definition modify (f : machine -> machine) : M unit :=
  fun m => (f m, Ok tt).

Declare Scope method_scope.
Delimit Scope method_scope with method.
Bind Scope method_scope with M.

Notation "x ← y ; z" := (bind y (fun x => z))
  (at level 20, y at level 100, z at level 200, only parsing) : method_scope.

Notation "x ;; z" := (bind x (fun _ => z))
  (at level 100, z at level 200, only parsing, right associativity)
  : method_scope.

Local Open Scope method_scope.

(** ** Library calls *)

Module Lib.

Import PyStr.

Definition lift {A} (r : result A) : M A := fun m => (m, r).

(** A call that only inspects the environment. *)
Definition reads {A} (f : os -> A) : M A := gets (fun m => f (env m)).

(** [shutil.which(name)]. *)
Definition which (o : os) (name : string) : option string :=
  search_path o !! name.

(** [os.path.isfile(p)] and [os.path.isdir(p)]. *)
Definition isfile_at (n : gmap string node) (p : string) : bool :=
  match n !! p with Some (File _) => true | _ => false end.

Definition isdir_at (n : gmap string node) (p : string) : bool :=
  match n !! p with Some Dir => true | _ => false end.

Definition isfile (o : os) (p : string) : bool := isfile_at (nodes o) p.

(** [os.remove(p)]: unlinks a regular file, unless the operating
    system refuses; raises when there is nothing to unlink. *)
Definition remove (p : string) : M unit :=
  n ← reads nodes;
  match n !! p with
  | Some (File false) =>
      modify (fun m => emit (Remove p) (with_env (set_nodes (delete p n)) m))
  | Some (File true) => raise (PermissionError p)
  | Some Dir => raise (PermissionError p)
  | None => raise (FileNotFoundError p)
  end.

(** The proper ancestors of a path, nearest first; the root and the
    current directory always exist and are left out. *)
Fixpoint ancestors (fuel : nat) (p : string) : list string :=
  match fuel with
  | 0 => []
  | S fuel' =>
      let d := os_path.dirname p in
      if negb (truthy d) || os_path.all_sep (chars d) || String.eqb d p
      then []
      else d :: ancestors fuel' d
  end.

(** The directories [os.makedirs(p)] goes through, outermost first. *)
Definition chain (p : string) : list string :=
  rev (ancestors (String.length p) p) ++ [p].

Definition mkdir_at (p : string) (n : gmap string node)
  : gmap string node :=
  match n !! p with Some _ => n | None => <[p := Dir]> n end.

(** [os.makedirs(p, exist_ok=True)]: fails when a regular file lies at
    the path or at one of its ancestors; otherwise the directory and
    its missing ancestors exist afterwards. *)
Definition makedirs (p : string) : M unit :=
  n ← reads nodes;
  match List.find (isfile_at n) (chain p) with
  | Some q =>
      if String.eqb q p then raise (FileExistsError p)
      else raise (NotADirectoryError q)
  | None =>
      modify (fun m =>
        emit (MakeDirs p)
             (with_env (set_nodes (fold_right mkdir_at n (chain p))) m))
  end.

(** [os.listdir(d)]: the names of the entries of [d], in no
    particular order. *)
Definition entries (n : gmap string node) (d : string) : list string :=
  os_path.basename <$>
    filter (fun k => k ≠ d ∧ os_path.dirname k = d) (fst <$> map_to_list n).

Definition listdir (o : os) (d : string) : result (list string) :=
  match nodes o !! d with
  | Some Dir => Ok (entries (nodes o) d)
  | Some (File _) => Raise (NotADirectoryError d)
  | None => Raise (FileNotFoundError d)
  end.

(** [QMessageBox.critical / warning / information]. *)
Definition message_box (i : icon) (title text : string) : M unit :=
  modify (emit (MessageBox i title text)).

(** [self.console.clear()] and [self.console.append(text)]. *)
Definition console_clear : M unit := modify (emit ConsoleClear).
Definition console_append (text : string) : M unit :=
  modify (emit (ConsoleAppend text)).

(** [d[key]]. *)
Definition getitem (d : gmap string string) (key : string) : M string :=
  match d !! key with
  | Some v => ret v
  | None => raise (KeyError key)
  end.

End Lib.

(** ** [ApkBuilderGUI] *)

Module App.

Import PyStr Lib.

(** The dictionary built in [__init__]. *)
Definition default_settings : gmap string string :=
  <["dump_file" := ""]> (
  <["dump_out" := ""]> (
  <["pack_dir" := ""]> (
  <["keystore_path" := ""]> (
  <["keystore_pass" := ""]> (
  <["keystore_out" := ""]> (
  <["sdk_path" := ""]> ∅)))))).

(** [load_settings]: [self.settings.update(data)] when the file holds
    a dictionary; nothing otherwise. *)
Definition load_settings (cfg : option (gmap string string))
    (s : gmap string string) : gmap string string :=
  match cfg with
  | Some data => data ∪ s
  | None => s
  end.

(** The object as [__init__] leaves it. *)
Definition init (o : os) : machine :=
  {| ui := {| settings := load_settings (config o) default_settings;
              page := Dump;
              run_enabled := true;
              commands := [];
              current_index := 0;
              built_apk := None;
              aligned_apk := None;
              process := None |};
     env := o;
     log := [] |}.

(** [save_settings]. *)
Definition save_settings : M unit :=
  s ← gets (fun m => settings (ui m));
  err ← gets (fun m => config_error (env m));
  match err with
  | None =>
      modify (fun m => emit (ConfigWrite s) (with_env (set_config (Some s)) m))
  | Some e =>
      message_box Warning "Warning" ("Cannot save settings: " +:+ e)
  end.

(** [switch_mode(idx)], for the three indices the buttons pass. *)
Definition switch_mode (p : mode) : M unit :=
  modify (with_ui (set_page p)).

(** The argument of [wrap]: a string or a list of strings. *)
Inductive pyval :=
| PStr (s : string)
| PList (l : list string).

Definition quoted (s : string) : string :=
  String dquote (s +:+ String dquote "").

(** [wrap]. *)
Definition wrap (cmd : pyval) : pyval :=
  match cmd with
  | PStr s =>
      let s' :=
        if contains " "%char s && negb (startswith s (String dquote ""))
        then quoted s else s in
      PList ["cmd"; "/c"; s']
  | PList _ => cmd
  end.

(** [v + l] for a list [l]. *)
Definition add_list (v : pyval) (l : list string) : M (list string) :=
  match v with
  | PList l0 => ret (l0 ++ l)
  | PStr _ => raise TypeError
  end.

Definition append_command (c : list string) : M unit :=
  modify (with_ui (fun g => set_commands (commands g ++ [c]) g)).

(** The derived paths of the two planning branches. *)
Definition dump_target (apk out : string) : string :=
  os_path.normpath
    (os_path.join out [fst (os_path.splitext (os_path.basename apk))]).

Definition apkname (proj : string) : string :=
  fst (os_path.splitext (os_path.basename proj)) +:+ ".apk".

Definition built_path (proj : string) : string :=
  os_path.normpath (os_path.join (os_path.dirname proj) [apkname proj]).

Definition aligned_path (proj : string) : string :=
  os_path.normpath
    (os_path.join (os_path.dirname proj) ["aligned_" +:+ apkname proj]).

Definition signed_path (proj : string) : string :=
  os_path.normpath
    (os_path.join (os_path.dirname proj) ["signed_" +:+ apkname proj]).

(** The resolution of zipalign and apksigner (lines 282-290). *)
Definition exe_suffix (o : os) : string :=
  if String.eqb (system o) "Windows" then ".exe" else "".

Definition locate_build_tools (o : os) (sdkroot : string)
  : result (string * string) :=
  if truthy sdkroot then
    match listdir o (os_path.join sdkroot ["build-tools"]) with
    | Raise e => Raise e
    | Ok names =>
        match sorted_reverse names with
        | [] => Raise IndexError
        | bt :: _ =>
            let tools := os_path.join sdkroot ["build-tools"; bt] in
            let ext := exe_suffix o in
            Ok (os_path.join tools ["zipalign" +:+ ext],
                os_path.join tools ["apksigner" +:+ ext])
        end
    end
  else Ok ("zipalign", "apksigner").

(** The search for apktool (line 239). *)
Definition find_apktool (o : os) : option string :=
  let found := which o "apktool" in
  if truthy_opt found then found else which o "apktool.bat".

(** The choice of the apktool invocation (lines 245-251). *)
Definition choose_executor (o : os) (apktool : string) : list string :=
  let java := which o "java" in
  if endswith (lower apktool) ".bat" && truthy_opt java then
    let jar := os_path.join (os_path.dirname apktool) ["apktool.jar"] in
    if isfile o jar then [default "" java; "-jar"; jar] else [apktool]
  else [apktool].

(** The clean-up of one intermediate file:
    [if path and os.path.isfile(path): os.remove(path)]. *)
Definition cleanup (p : option string) : M unit :=
  match p with
  | Some path =>
      if truthy path then
        there ← reads (fun o => isfile o path);
        if there then remove path else ret tt
      else ret tt
  | None => ret tt
  end.

(** The [try] block of [execute_next]:
    [self.process.start(cmd[0], cmd[1:])]. The result is [false] when
    the statement raises (an empty command, or no process object) and
    the handler runs. A process that is already running ignores
    [start]. *)
Definition try_start (cmd : list string) : M bool :=
  proc ← gets (fun m => process (ui m));
  match proc, cmd with
  | Some NotRunning, program :: arguments =>
      modify (fun m =>
        emit (ProcessStart program arguments)
             (with_ui (set_process (Some Running)) m));;
      ret true
  | Some Running, _ :: _ => ret true
  | _, _ => ret false
  end.

(** [execute_next]. The handler of the [try] block passes the
    exception object to [console.append], which accepts strings only
    and raises [TypeError]. *)
Definition execute_next : M unit :=
  g ← gets ui;
  if (length (commands g) <=? current_index g)%nat then
    message_box Information "Done" "All tasks completed";;
    idx ← gets (fun m => currentIndex (page (ui m)));
    (if Nat.eqb idx 1 then
       b ← gets (fun m => built_apk (ui m));
       cleanup b;;
       a ← gets (fun m => aligned_apk (ui m));
       cleanup a
     else ret tt);;
    modify (with_ui (set_run_enabled true))
  else
    match commands g !! current_index g with
    | None => raise IndexError
    | Some cmd =>
        console_append (">> " +:+ join " " cmd);;
        started ← try_start cmd;
        (if started then ret tt else raise TypeError);;
        modify (with_ui (fun g => set_current_index (S (current_index g)) g))
    end.

(** The three planning branches of [start_mode]; the result is
    [false] when the branch returns from [start_mode]. *)
Definition plan_dump (executor : list string) (s : gmap string string)
  : M bool :=
  apk ← getitem s "dump_file";
  out ← getitem s "dump_out";
  if negb (truthy apk) || negb (truthy out) then
    message_box Warning "Error" "Please fill in Dump fields.";;
    modify (with_ui (set_run_enabled true));;
    ret false
  else
    let target := dump_target apk out in
    makedirs target;;
    append_command (executor ++ ["d"; "-f"; apk; "-o"; target]);;
    ret true.

Definition plan_pack (executor : list string) (s : gmap string string)
  : M bool :=
  proj ← getitem s "pack_dir";
  ks ← getitem s "keystore_path";
  ksp ← getitem s "keystore_pass";
  if negb (truthy proj) || negb (truthy ks) || negb (truthy ksp) then
    message_box Warning "Error" "Please fill in Pack fields.";;
    modify (with_ui (set_run_enabled true));;
    ret false
  else
    let built := built_path proj in
    modify (with_ui (set_built_apk (Some built)));;
    append_command (executor ++ ["b"; proj; "-o"; built]);;
    sdkroot ← getitem s "sdk_path";
    tools ← bind (reads (fun o => locate_build_tools o sdkroot)) lift;
    let za := fst tools in
    let asgn := snd tools in
    let aligned := aligned_path proj in
    modify (with_ui (set_aligned_apk (Some aligned)));;
    let signed := signed_path proj in
    c2 ← add_list (wrap (PStr za)) ["-v"; "-p"; "4"; built; aligned];
    append_command c2;;
    c3 ← add_list (wrap (PStr asgn))
           ["sign"; "-v"; "--ks"; ks; "--ks-pass"; "pass:" +:+ ksp;
            "--out"; signed; aligned];
    append_command c3;;
    ret true.

Definition plan_keystore (s : gmap string string) : M bool :=
  kout ← getitem s "keystore_out";
  alias ← getitem s "gen_alias";
  apw ← getitem s "gen_alias_pass";
  if negb (truthy kout) || negb (truthy alias) || negb (truthy apw) then
    message_box Warning "Error" "Please fill in Keystore fields.";;
    modify (with_ui (set_run_enabled true));;
    ret false
  else
    append_command
      ["keytool"; "-genkey"; "-v"; "-keystore"; kout; "-alias"; alias;
       "-keyalg"; "RSA"; "-keysize"; "2048"; "-validity"; "10000";
       "-storepass"; apw; "-keypass"; apw];;
    ret true.

(** [start_mode]. *)
Definition start_mode : M unit :=
  modify (with_ui (set_run_enabled false));;
  console_clear;;
  save_settings;;
  mode ← gets (fun m => currentIndex (page (ui m)));
  s ← gets (fun m => settings (ui m));
  modify (with_ui (fun g =>
    set_aligned_apk None
      (set_built_apk None (set_current_index 0 (set_commands [] g)))));;
  apktool ← reads find_apktool;
  if negb (truthy_opt apktool) then
    message_box Critical "Error" "Please install apktool and add to PATH.";;
    modify (with_ui (set_run_enabled true))
  else
    executor ← reads (fun o => choose_executor o (default "" apktool));
    planned ← (if Nat.eqb mode 0 then plan_dump executor s
               else if Nat.eqb mode 1 then plan_pack executor s
               else plan_keystore s);
    if planned then
      modify (with_ui (set_process (Some NotRunning)));;
      execute_next
    else ret tt.

(** The signals of the process object and the slots connected to
    them. *)
Inductive chunk :=
| Text (data : string)
| Undecodable (message : string).

Inductive exit_status := NormalExit | CrashExit.

Inductive process_error :=
| FailedToStart | Crashed | Timedout | ReadError | WriteError
| UnknownError.

Definition exit_status_int (st : exit_status) : Z :=
  match st with NormalExit => 0 | CrashExit => 1 end.

Definition process_error_int (e : process_error) : Z :=
  match e with
  | FailedToStart => 0 | Crashed => 1 | Timedout => 2
  | ReadError => 3 | WriteError => 4 | UnknownError => 5
  end.

Definition finished_line (exit_code : Z) (st : exit_status) : string :=
  "[Finished] exitCode=" +:+ pretty exit_code +:+ ", status="
    +:+ pretty (exit_status_int st).

(** [on_output], on the bytes read from the process: text that
    decodes as UTF-8, or bytes that do not. *)
Definition on_output (c : chunk) : M unit :=
  match c with
  | Text data =>
      if strip_nonempty data then console_append data else ret tt
  | Undecodable e => console_append ("> Error : " +:+ e)
  end.

(** [on_finished]. *)
Definition on_finished (exit_code : Z) (st : exit_status) : M unit :=
  console_append (finished_line exit_code st);;
  execute_next.

(** [on_process_error]. *)
Definition on_process_error (e : process_error) : M unit :=
  console_append
    ("Process launched failed, type error: "
       +:+ pretty (process_error_int e)).

(** What the process object reports while a command is in flight. A
    process that finished, or that failed to start, is no longer
    running when its slot is called. *)
Inductive signal :=
| ReadyRead (c : chunk)
| Finished (exit_code : Z) (st : exit_status)
| ErrorOccurred (e : process_error).

Definition deliver (sig : signal) : M unit :=
  match sig with
  | ReadyRead c => on_output c
  | Finished exit_code st =>
      modify (with_ui (set_process (Some NotRunning)));;
      on_finished exit_code st
  | ErrorOccurred e =>
      (match e with
       | FailedToStart => modify (with_ui (set_process (Some NotRunning)))
       | _ => ret tt
       end);;
      on_process_error e
  end.

(** A signal can only come from a running process. *)
Definition in_flight (m : machine) : bool :=
  match process (ui m) with Some Running => true | _ => false end.

(** The machine after a sequence of signals, each delivered while a
    process is in flight; [None] when one of them is not. A slot that
    raises leaves no process in flight, so that no signal follows. *)
Fixpoint deliver_all (sigs : list signal) (m : machine) : option machine :=
  match sigs with
  | [] => Some m
  | sig :: rest =>
      if in_flight m then deliver_all rest (fst (deliver sig m))
      else None
  end.

End App.

(** ** Vocabulary of the statements *)

Module Spec.

Import PyStr Lib App.

(** A prefix that ends a directory part: empty, or closed by a slash. *)
Definition dir_prefix (P : list ascii) : Prop :=
  P = [] ∨ ∃ P', P = P' ++ [os_path.sep].

(** A file name: no slash, and none of the empty name, [.] and [..]. *)
Definition plain_name (n : list ascii) : Prop :=
  (os_path.sep ∉ n) ∧ n ≠ [] ∧ n ≠ os_path.dot ∧ n ≠ os_path.dotdot.

(** Some character of the string is white space. *)
Definition has_whitespace (s : string) : bool :=
  existsb isspace (chars s).

(** The commands started, the message boxes shown and the files
    removed, read off an effect log. *)
Definition started (l : list effect) : list (list string) :=
  flat_map (fun e => match e with
                     | ProcessStart program arguments =>
                         [program :: arguments]
                     | _ => []
                     end) l.

Definition dialogs (l : list effect) : list (icon * string * string) :=
  flat_map (fun e => match e with
                     | MessageBox i title text => [(i, title, text)]
                     | _ => []
                     end) l.

Definition removed (l : list effect) : list string :=
  flat_map (fun e => match e with Remove p => [p] | _ => [] end) l.


(** The queue is drained: [current_index >= len(commands)]. *)
Definition drained (g : gui) : Prop :=
  length (commands g) ≤ current_index g.


(** What a command does while it runs: the chunks it writes, then
    its exit code and status. *)
Record behaviour := {
  outputs : list chunk;
  exit_code : Z;
  status : exit_status
}.

Definition signals_of (b : behaviour) : list signal :=
  (ReadyRead <$> outputs b) ++ [Finished (exit_code b) (status b)].

Definition output_effect (c : chunk) : list effect :=
  match c with
  | Text data => if strip_nonempty data then [ConsoleAppend data] else []
  | Undecodable e => [ConsoleAppend ("> Error : " +:+ e)]
  end.

Definition launch_effects (cmd : list string) : list effect :=
  ConsoleAppend (">> " +:+ join " " cmd) ::
  match cmd with
  | program :: arguments => [ProcessStart program arguments]
  | [] => []
  end.

Definition finished_effect (b : behaviour) : effect :=
  ConsoleAppend (finished_line (exit_code b) (status b)).

(** The effects of one command, from its launch to its "finished"
    line, and of the first commands of a queue. *)
Definition block (cmd : list string) (b : behaviour) : list effect :=
  launch_effects cmd ++ flat_map output_effect (outputs b)
    ++ [finished_effect b].

Definition transcript (q : list (list string)) (bs : list behaviour)
  : list effect :=
  concat (zip_with block q bs).

(** The machine while command number [length bs] is in flight, after
    the commands before it behaved as [bs] and it wrote [outs]. *)
Definition at_command (q : list (list string)) (log0 : list effect)
    (bs : list behaviour) (outs : list chunk) (m : machine) : Prop :=
  commands (ui m) = q ∧ process (ui m) = Some Running
  ∧ current_index (ui m) = S (length bs)
  ∧ ∃ cmd, q !! length bs = Some cmd
      ∧ log m = log0 ++ transcript q bs ++ launch_effects cmd
                  ++ flat_map output_effect outs.

Definition finished_run (q : list (list string)) (log0 : list effect)
    (bs : list behaviour) (m : machine) : Prop :=
  commands (ui m) = q ∧ in_flight m = false ∧ length bs = length q
  ∧ ∃ ps, log m = log0 ++ transcript q bs
                    ++ MessageBox Information "Done" "All tasks completed"
                         :: (Remove <$> ps).

(** The attributes [start_mode] resets, and the machine once its
    prologue (lines 227-236) has run. *)
Definition reset (g : gui) : gui :=
  set_aligned_apk None
    (set_built_apk None (set_current_index 0 (set_commands [] g))).

Definition prepare (m : machine) : machine :=
  with_ui reset
    (fst (save_settings (emit ConsoleClear (with_ui (set_run_enabled false) m)))).

(** The planning branch of a page. *)
Definition branch (p : mode) (executor : list string)
    (s : gmap string string) : M bool :=
  match p with
  | Dump => plan_dump executor s
  | Pack => plan_pack executor s
  | KeystoreGen => plan_keystore s
  end.
(** The list [wrap] makes of a tool name, and the queue of a Pack run
    given the two tools. *)
Definition wrapped (tool : string) : list string :=
  match wrap (PStr tool) with PList l => l | PStr _ => [] end.

Definition pack_queue (exe : list string) (proj ks ksp za asgn : string)
  : list (list string) :=
  [exe ++ ["b"; proj; "-o"; built_path proj];
   wrapped za ++ ["-v"; "-p"; "4"; built_path proj; aligned_path proj];
   wrapped asgn
     ++ ["sign"; "-v"; "--ks"; ks; "--ks-pass"; "pass:" +:+ ksp;
         "--out"; signed_path proj; aligned_path proj]].
(** The fields a page requires. *)
Definition required (p : mode) : list string :=
  match p with
  | Dump => ["dump_file"; "dump_out"]
  | Pack => ["pack_dir"; "keystore_path"; "keystore_pass"]
  | KeystoreGen => ["keystore_out"; "gen_alias"; "gen_alias_pass"]
  end.
(** The paths and the selection as the specification words them. *)
Definition claimed_dump_target (apk out : string) : string :=
  os_path.join out [fst (os_path.splitext (os_path.basename apk))].

Definition claimed_built_path (proj : string) : string :=
  os_path.join (os_path.dirname proj) [os_path.basename proj +:+ ".apk"].

Definition claimed_aligned_path (proj : string) : string :=
  os_path.join (os_path.dirname proj)
    ["aligned_" +:+ os_path.basename proj +:+ ".apk"].

Definition claimed_signed_path (proj : string) : string :=
  os_path.join (os_path.dirname proj)
    ["signed_" +:+ os_path.basename proj +:+ ".apk"].

(** The entries of a directory that are directories themselves. *)
Definition subdirectories (n : gmap string node) (d : string)
  : list string :=
  filter (fun name => isdir_at n (os_path.join d [name]) = true)
         (entries n d).

(** The resolution of the tools as the specification words it: the
    greatest subdirectory of build-tools. *)
Definition claimed_build_tools (o : os) (sdkroot : string)
  : result (string * string) :=
  if truthy sdkroot then
    match sorted_reverse
            (subdirectories (nodes o)
               (os_path.join sdkroot ["build-tools"])) with
    | [] => Raise IndexError
    | bt :: _ =>
        let tools := os_path.join sdkroot ["build-tools"; bt] in
        Ok (os_path.join tools ["zipalign" +:+ exe_suffix o],
            os_path.join tools ["apksigner" +:+ exe_suffix o])
    end
  else Ok ("zipalign", "apksigner").

(** No regular file lies at the path or at one of its ancestors. *)
Definition creatable (n : gmap string node) (p : string) : Prop :=
  Forall (fun q => isfile_at n q = false) (chain p).

End Spec.

(** ** Concrete machines *)

Module Examples.

Import PyStr Lib Spec App.

(** A POSIX host with apktool on the search path, a disk and the
    dictionary held by the configuration file, if any. *)
Definition host (n : gmap string node) (cfg : option (gmap string string))
  : os :=
  {| search_path := {[ "apktool" := "/usr/bin/apktool" ]};
     system := "Linux";
     nodes := n;
     config := cfg;
     config_error := None |}.

(** The object after [__init__] on such a host, a page selected. *)
Definition started_up (n : gmap string node)
    (cfg : option (gmap string string)) (p : mode) : machine :=
  fst (switch_mode p (init (host n cfg))).

(** A first start on the Keystore page: no configuration file. *)
Definition fresh_keystore : machine := started_up ∅ None KeystoreGen.

(** The Keystore page with the output path set. *)
Definition keystore_chosen : machine :=
  started_up ∅ (Some {[ "keystore_out" := "/home/u/my.jks" ]}) KeystoreGen.

(** A Dump run of [/tmp/app.apk] into [/out]. *)
Definition dump_example : machine :=
  started_up ∅
    (Some (<["dump_file" := "/tmp/app.apk"]> {[ "dump_out" := "/out" ]}))
    Dump.

(** A Dump run into the relative directory [./out]. *)
Definition dump_relative : machine :=
  started_up ∅
    (Some (<["dump_file" := "/tmp/app.apk"]> {[ "dump_out" := "./out" ]}))
    Dump.

(** The configuration file of a Pack run. *)
Definition pack_settings (proj sdk : string) : gmap string string :=
  <["pack_dir" := proj]> (<["keystore_path" := "/k.jks"]>
    (<["keystore_pass" := "secret"]> {[ "sdk_path" := sdk ]})).

(** Pack runs of [/x/MyApp] and of [/x/My.App], without an SDK root. *)
Definition pack_example : machine :=
  started_up ∅ (Some (pack_settings "/x/MyApp" "")) Pack.

Definition pack_dotted : machine :=
  started_up ∅ (Some (pack_settings "/x/My.App" "")) Pack.

(** An SDK whose build-tools directory holds three versions. *)
Definition sdk_disk : gmap string node :=
  <["/sdk/build-tools" := Dir]> (<["/sdk/build-tools/29.0.2" := Dir]>
    (<["/sdk/build-tools/30.0.3" := Dir]>
      {[ "/sdk/build-tools/28.0.3" := Dir ]})).

(** The same directory with a regular file next to one version. *)
Definition sdk_disk_with_file : gmap string node :=
  <["/sdk/build-tools" := Dir]> (<["/sdk/build-tools/30.0.3" := Dir]>
    {[ "/sdk/build-tools/notes.txt" := File false ]}).

(** An SDK root without a build-tools directory. *)
Definition pack_no_build_tools : machine :=
  started_up {[ "/sdk" := Dir ]} (Some (pack_settings "/x/MyApp" "/sdk"))
    Pack.

(** A Pack run at whose end the built package exists and cannot be
    unlinked, next to the aligned and signed packages. *)
Definition pack_protected : machine :=
  started_up (<["/x/MyApp.apk" := File true]>
                (<["/x/aligned_MyApp.apk" := File false]>
                   {[ "/x/signed_MyApp.apk" := File false ]}))
             (Some (pack_settings "/x/MyApp" "")) Pack.

(** The same run with deletable intermediate files. *)
Definition pack_deletable : machine :=
  started_up (<["/x/MyApp.apk" := File false]>
                (<["/x/aligned_MyApp.apk" := File false]>
                   {[ "/x/signed_MyApp.apk" := File false ]}))
             (Some (pack_settings "/x/MyApp" "")) Pack.

Definition all_succeed : list signal :=
  [Finished 0 NormalExit; Finished 0 NormalExit; Finished 0 NormalExit].

(** The machine after a planned run received the given signals. *)
Definition after (m : machine) (sigs : list signal) : machine :=
  default m (deliver_all sigs (fst (start_mode m))).


(** The same run when the user selects the Dump page while the last
    command is in flight. *)
Definition pack_switched_end : machine :=
  fst (deliver (Finished 0 NormalExit)
         (fst (switch_mode Dump
                 (after pack_deletable
                    [Finished 0 NormalExit; Finished 0 NormalExit])))).

(** A queue of two commands ready to run, and what the commands do. *)
Definition two_commands : machine :=
  with_ui (fun g => set_process (Some NotRunning)
                      (set_commands [["apktool"; "b"; "p"]; ["cmd"; "/c"; "z"]] g))
          (init (host ∅ None)).

Definition two_behaviours : list behaviour :=
  [ {| outputs := [Text "I: Building"; Text "   "];
       exit_code := 0; status := NormalExit |};
    {| outputs := [Undecodable "invalid start byte"];
       exit_code := 1; status := CrashExit |} ].

Definition two_commands_end : machine :=
  default two_commands
    (deliver_all (flat_map signals_of two_behaviours)
       (fst (execute_next two_commands))).

End Examples.

(** ** Proof automation *)

(** A literal without a slash. *)
Ltac no_sep :=
  let H := fresh in
  cbv [PyStr.chars list_ascii_of_string]; intros H;
  repeat (apply elem_of_cons in H as [H|H]; [discriminate H|]);
  exact (proj1 (elem_of_nil _) H).

(** Membership in a literal list. *)
Ltac in_list :=
  repeat first [apply list_elem_of_here | apply list_elem_of_further].

(** * Properties *)

(** ** Paths *)

Section PathFacts.

Import os_path PyStr Spec.

Lemma after_last_none c n : c ∉ n → after_last c n = 0.
Proof.
  induction n as [|x n IH]; [done|].
  intros Hn. apply not_elem_of_cons in Hn as [Hx Hn].
  simpl. rewrite IH by done.
  destruct (Ascii.eqb_spec x c); congruence.
Qed.

Lemma after_last_app c P n :
  c ∉ n → after_last c (P ++ n) = after_last c P.
Proof.
  intros Hn. induction P as [|x P IH]; simpl.
  - by apply after_last_none.
  - by rewrite IH.
Qed.

Lemma after_last_snoc c P : after_last c (P ++ [c]) = S (length P).
Proof.
  induction P as [|x P IH]; simpl.
  - by rewrite Ascii.eqb_refl.
  - by rewrite IH.
Qed.

Lemma basename_l_app P n :
  dir_prefix P → sep ∉ n → basename_l (P ++ n) = n.
Proof.
  intros HP Hn. unfold basename_l. rewrite after_last_app by done.
  destruct HP as [->|[P' ->]]; [done|].
  rewrite after_last_snoc.
  replace (S (length P')) with (length (P' ++ [sep])).
  - by rewrite drop_app_length.
  - rewrite length_app. simpl. lia.
Qed.

Lemma basename_l_no_sep p : sep ∉ basename_l p.
Proof.
  unfold basename_l. induction p as [|x p IH]; simpl.
  - apply not_elem_of_nil.
  - destruct (after_last sep p) as [|k] eqn:E.
    + destruct (Ascii.eqb_spec x sep) as [->|Hx]; simpl.
      * by rewrite drop_0 in *.
      * rewrite drop_0 in IH. by apply not_elem_of_cons.
    + done.
Qed.

Lemma last_snoc_inv (a : list ascii) d :
  a ≠ [] → List.last a d = sep → ∃ a', a = a' ++ [sep].
Proof.
  intros Ha Hl. destruct (exists_last Ha) as (a' & x & ->).
  rewrite last_last in Hl. subst. eauto.
Qed.

Lemma join2_l_name d n :
  n ≠ [] → sep ∉ n → ∃ P, dir_prefix P ∧ join2_l d n = P ++ n.
Proof.
  intros Hne Hn. destruct n as [|c n]; [done|].
  apply not_elem_of_cons in Hn as [Hc Hn].
  unfold join2_l.
  destruct (Ascii.eqb_spec c sep) as [->|_]; [done|].
  destruct d as [|x d].
  - exists []. split; [by left|done].
  - destruct (Ascii.eqb_spec (List.last (x :: d) "000"%char) sep) as [Hl|_].
    + exists (x :: d). split; [|done]. right.
      by apply (last_snoc_inv _ "000"%char).
    + exists ((x :: d) ++ [sep]). split; [right; eauto|].
      by rewrite <- app_assoc.
Qed.

Lemma split_sep_nonempty p : split_sep p ≠ [].
Proof.
  destruct p as [|x p]; simpl; [done|].
  destruct (Ascii.eqb x sep); [done|]. by destruct (split_sep p).
Qed.

Lemma split_sep_name n : sep ∉ n → split_sep n = [n].
Proof.
  induction n as [|x n IH]; [done|].
  intros Hn. apply not_elem_of_cons in Hn as [Hx Hn]. simpl.
  destruct (Ascii.eqb_spec x sep); [done|]. by rewrite IH.
Qed.

Lemma split_sep_app P n :
  sep ∉ n → split_sep (P ++ sep :: n) = split_sep P ++ [n].
Proof.
  intros Hn. induction P as [|x P IH]; simpl.
  - by rewrite split_sep_name.
  - destruct (Ascii.eqb x sep); [by rewrite IH|].
    rewrite IH. destruct (split_sep P) eqn:E; [|done].
    by apply split_sep_nonempty in E.
Qed.

Lemma norm_step_name k acc n :
  plain_name n → norm_step k acc n = acc ++ [n].
Proof.
  intros (_ & H1 & H2 & H3). unfold norm_step, comp_eqb.
  destruct n; [done|]. simpl.
  rewrite !bool_decide_eq_false_2 by done. done.
Qed.

Lemma join_sep_snoc cs n :
  ∃ Q, dir_prefix Q ∧ join_sep (cs ++ [n]) = Q ++ n.
Proof.
  induction cs as [|c cs (Q & HQ & IH)].
  - exists []. split; [by left|done].
  - exists (c ++ sep :: Q). split.
    + right. destruct HQ as [->|[Q' ->]].
      * by exists c.
      * exists (c ++ sep :: Q'). by rewrite <- app_assoc.
    + simpl. rewrite IH. destruct (cs ++ [n]) eqn:E.
      * by destruct cs.
      * by rewrite <- app_assoc.
Qed.

Lemma dir_prefix_repeat k Q :
  dir_prefix Q → dir_prefix (repeat sep k ++ Q).
Proof.
  intros [->|[Q' ->]].
  - rewrite app_nil_r. destruct k; [by left|]. right.
    exists (repeat sep k). by rewrite <- repeat_cons.
  - right. exists (repeat sep k ++ Q'). by rewrite app_assoc.
Qed.

Lemma normpath_l_name P n :
  dir_prefix P → plain_name n →
  ∃ R, dir_prefix R ∧ normpath_l (P ++ n) = R ++ n.
Proof.
  intros HP Hn. pose proof Hn as (Hs & Hne & _).
  unfold normpath_l.
  set (k := initial_slashes (P ++ n)). clearbody k.
  assert (split_sep (P ++ n)
          = match P with [] => [] | _ => split_sep (removelast P) end
              ++ [n]) as ->.
  { destruct HP as [->|[P' ->]].
    - by rewrite split_sep_name.
    - rewrite <- app_assoc. simpl. rewrite split_sep_app by done.
      rewrite removelast_last. by destruct P'. }
  rewrite fold_left_app. simpl. rewrite norm_step_name by done.
  destruct (join_sep_snoc (fold_left (norm_step k)
     match P with [] => [] | _ => split_sep (removelast P) end []) n)
    as (Q & HQ & ->).
  exists (repeat sep k ++ Q). split; [by apply dir_prefix_repeat|].
  rewrite <- app_assoc.
  destruct (P ++ n) eqn:E.
  { apply app_eq_nil in E as [_ ?]. done. }
  destruct (repeat sep k ++ Q ++ n) eqn:E'; [|done].
  apply app_eq_nil in E' as [_ E']. apply app_eq_nil in E' as [_ ?]. done.
Qed.

(** The last component of a normalised join is the name joined. *)
Lemma basename_normpath_join_l d n :
  plain_name n → basename_l (normpath_l (join2_l d n)) = n.
Proof.
  intros Hn. pose proof Hn as (Hs & Hne & _).
  destruct (join2_l_name d n Hne Hs) as (P & HP & ->).
  destruct (normpath_l_name P n HP Hn) as (R & HR & ->).
  by apply basename_l_app.
Qed.

End PathFacts.

Section StringPaths.
Import os_path PyStr Spec App.

Lemma chars_str l : chars (str l) = l.
Proof. apply list_ascii_of_string_of_list_ascii. Qed.

Lemma str_chars s : str (chars s) = s.
Proof. apply string_of_list_ascii_of_string. Qed.

Lemma chars_app a b : chars (a +:+ b) = chars a ++ chars b.
Proof.
  induction a as [|c a IH]; [done|].
  change (chars (String c a +:+ b)) with (c :: chars (a +:+ b)).
  by rewrite IH.
Qed.

Lemma basename_normpath_join d n :
  plain_name (chars n) → basename (normpath (os_path.join d [n])) = n.
Proof.
  intros Hn. unfold basename, normpath, os_path.join. cbn [fold_left].
  unfold join2.
  rewrite !chars_str, basename_normpath_join_l by done.
  apply str_chars.
Qed.

Lemma stem_no_sep p : sep ∉ chars (fst (splitext (basename p))).
Proof.
  unfold splitext, basename. simpl. rewrite !chars_str.
  pose proof (basename_l_no_sep (chars p)) as Hb.
  unfold splitext_l.
  destruct (_ && _); simpl; [|done].
  intros Hin. apply Hb. by eapply subseteq_take.
Qed.

Lemma apkname_plain pre p :
  sep ∉ chars pre → plain_name (chars (pre +:+ apkname p)).
Proof.
  intros Hpre. unfold apkname. rewrite !chars_app.
  pose proof (stem_no_sep p) as Hs.
  set (stem := chars (fst (splitext (basename p)))) in *.
  assert (3 < length (chars pre ++ stem ++ chars ".apk")) as Hlen.
  { rewrite !length_app. simpl. lia. }
  split; [|split; [|split]].
  - rewrite !elem_of_app. intros [?|[?|Hin]]; [done..|].
    revert Hin. no_sep.
  - intros E. rewrite E in Hlen. simpl in Hlen. lia.
  - intros E. rewrite E in Hlen. simpl in Hlen. lia.
  - intros E. rewrite E in Hlen. simpl in Hlen. lia.
Qed.

Lemma basename_built p : basename (built_path p) = apkname p.
Proof.
  unfold built_path. apply basename_normpath_join.
  apply (apkname_plain "" p). apply not_elem_of_nil.
Qed.

Lemma basename_aligned p :
  basename (aligned_path p) = "aligned_" +:+ apkname p.
Proof.
  unfold aligned_path. apply basename_normpath_join.
  apply apkname_plain. no_sep.
Qed.

Lemma basename_signed p :
  basename (signed_path p) = "signed_" +:+ apkname p.
Proof.
  unfold signed_path. apply basename_normpath_join.
  apply apkname_plain. no_sep.
Qed.



Lemma aligned_not_built p : aligned_path p ≠ built_path p.
Proof.
  intros E. apply (f_equal basename) in E.
  rewrite basename_aligned, basename_built in E.
  apply (f_equal (fun s => length (chars s))) in E.
  rewrite chars_app, length_app in E. simpl in E. lia.
Qed.

Lemma truthy_normpath p : truthy (normpath p) = true.
Proof.
  unfold truthy, normpath, normpath_l.
  destruct (chars p) as [|c l]; [done|].
  destruct (repeat sep _ ++ _); done.
Qed.

End StringPaths.

(** ** The runner and the clean-up *)

Section Runner.
Import PyStr Lib Spec App.

Lemma cleanup_cases p m :
  (∃ path, p = Some path ∧ truthy path = true
     ∧ nodes (env m) !! path = Some (File false)
     ∧ cleanup p m
       = (emit (Remove path)
            (with_env (set_nodes (delete path (nodes (env m)))) m), Ok tt))
  ∨ (cleanup p m = (m, Ok tt)
     ∧ ∀ path, p = Some path → truthy path = true →
         isfile_at (nodes (env m)) path = false)
  ∨ (∃ path, p = Some path ∧ truthy path = true
       ∧ nodes (env m) !! path = Some (File true)
       ∧ cleanup p m = (m, Raise (PermissionError path))).
Proof.
  destruct p as [path|]; [|right; left; by split].
  unfold cleanup. destruct (truthy path) eqn:Ht;
    [|right; left; split; [done|congruence]].
  unfold bind, reads, gets, isfile, isfile_at, remove, bind, reads, gets.
  destruct (nodes (env m) !! path) as [[[]|]|] eqn:E; simpl; rewrite ?E.
  - right; right. by exists path.
  - left. by exists path.
  - right; left. split; [done|]. intros ? [= <-] _. by rewrite E.
  - right; left. split; [done|]. intros ? [= <-] _. by rewrite E.
Qed.

Lemma execute_next_launch m cmd :
  commands (ui m) !! current_index (ui m) = Some cmd →
  cmd ≠ [] →
  process (ui m) = Some NotRunning →
  execute_next m
  = ({| ui := set_current_index (S (current_index (ui m)))
                (set_process (Some Running) (ui m));
        env := env m;
        log := log m ++ launch_effects cmd |}, Ok tt).
Proof.
  intros Hcmd Hne Hproc. unfold execute_next, bind, gets.
  assert (current_index (ui m) < length (commands (ui m))) as Hlt
    by (by eapply lookup_lt_Some).
  destruct (Nat.leb_spec (length (commands (ui m))) (current_index (ui m)));
    [lia|].
  rewrite Hcmd. destruct cmd as [|program arguments]; [done|].
  unfold console_append, modify, try_start, bind, gets. simpl.
  rewrite Hproc. simpl. unfold emit, with_ui. simpl.
  by rewrite <- app_assoc.
Qed.


Lemma execute_next_drained m :
  drained (ui m) →
  execute_next m
  = (if Nat.eqb (currentIndex (page (ui m))) 1 then
       match cleanup (built_apk (ui m))
               (emit (MessageBox Information "Done" "All tasks completed") m)
       with
       | (m1, Ok _) =>
           match cleanup (aligned_apk (ui m)) m1 with
           | (m2, Ok _) => (with_ui (set_run_enabled true) m2, Ok tt)
           | (m2, Raise e) => (m2, Raise e)
           end
       | (m1, Raise e) => (m1, Raise e)
       end
     else
       (with_ui (set_run_enabled true)
          (emit (MessageBox Information "Done" "All tasks completed") m),
        Ok tt)).
Proof.
  unfold drained. intros Hd. unfold execute_next, bind, gets.
  destruct (Nat.leb_spec (length (commands (ui m))) (current_index (ui m)));
    [|lia].
  unfold message_box, modify. simpl.
  destruct (Nat.eqb (currentIndex (page (ui m))) 1); [|done].
  cbn [ui emit].
  destruct (cleanup_cases (built_apk (ui m))
              (emit (MessageBox Information "Done" "All tasks completed") m))
    as [(p & _ & _ & _ & ->)|[[-> _]|(p & _ & _ & _ & ->)]];
    cbn [ui emit with_env]; done.
Qed.



Lemma deliver_all_snoc sigs sig m m' :
  deliver_all (sigs ++ [sig]) m = Some m'
  ↔ ∃ m1, deliver_all sigs m = Some m1 ∧ in_flight m1 = true
          ∧ m' = fst (deliver sig m1).
Proof.
  revert m. induction sigs as [|s sigs IH]; intros m; simpl.
  - destruct (in_flight m) eqn:Hf; split.
    + intros [= <-]. by exists m.
    + intros (m1 & [= <-] & _ & ->). done.
    + done.
    + intros (m1 & [= <-] & ? & _). congruence.
  - destruct (in_flight m); [apply IH|].
    split; [done|]. by intros (m1 & ? & _).
Qed.

Lemma transcript_snoc q bs cmd b :
  q !! length bs = Some cmd →
  transcript q (bs ++ [b]) = transcript q bs ++ block cmd b.
Proof.
  unfold transcript. revert q.
  induction bs as [|b0 bs IH]; intros [|c0 q] Hq; try done.
  - injection Hq as ->. cbn [zip_with app concat].
    destruct q; apply app_nil_r.
  - cbn [zip_with app concat]. rewrite IH by done. apply app_assoc.
Qed.


Lemma started_app l1 l2 : started (l1 ++ l2) = started l1 ++ started l2.
Proof. apply flat_map_app. Qed.









Lemma dialogs_removes ps : dialogs (Remove <$> ps) = [].
Proof. by induction ps. Qed.


Lemma execute_next_drained_log m :
  drained (ui m) →
  ∃ ps, log (fst (execute_next m))
        = log m ++ MessageBox Information "Done" "All tasks completed"
                     :: (Remove <$> ps)
        ∧ commands (ui (fst (execute_next m))) = commands (ui m)
        ∧ process (ui (fst (execute_next m))) = process (ui m).
Proof.
  intros Hd. rewrite execute_next_drained by done.
  destruct (Nat.eqb _ 1); [|by exists []].
  set (m0 := emit (MessageBox Information "Done" "All tasks completed") m).
  destruct (cleanup_cases (built_apk (ui m)) m0)
    as [(b & _ & _ & _ & ->)|[[-> _]|(b & _ & _ & _ & ->)]];
    [| |by exists []].
  - set (m1 := emit (Remove b) _).
    destruct (cleanup_cases (aligned_apk (ui m)) m1)
      as [(a & _ & _ & _ & ->)|[[-> _]|(a & _ & _ & _ & ->)]]; simpl.
    + exists [b; a]. by rewrite <- !app_assoc.
    + exists [b]. by rewrite <- !app_assoc.
    + exists [b]. by rewrite <- !app_assoc.
  - destruct (cleanup_cases (aligned_apk (ui m)) m0)
      as [(a & _ & _ & _ & ->)|[[-> _]|(a & _ & _ & _ & ->)]]; simpl.
    + exists [a]. by rewrite <- !app_assoc.
    + by exists [].
    + by exists [].
Qed.

(** Scheduling from an idle process: either the next command is
    launched, or the run is over. *)
Lemma schedule q log0 bs m :
  Forall (fun c => c ≠ []) q →
  commands (ui m) = q →
  process (ui m) = Some NotRunning →
  current_index (ui m) = length bs →
  length bs ≤ length q →
  log m = log0 ++ transcript q bs →
  at_command q log0 bs [] (fst (execute_next m))
  ∨ finished_run q log0 bs (fst (execute_next m)).
Proof.
  intros Hq Hc Hp Hi Hlen Hlog.
  destruct (decide (length bs < length q)) as [Hlt|Hge].
  - left. destruct (lookup_lt_is_Some_2 q (length bs) Hlt) as [cmd Hcmd].
    rewrite (execute_next_launch m cmd).
    + simpl. rewrite Hlog, Hi. repeat split; try done.
      exists cmd. split; [done|]. simpl.
      by rewrite app_nil_r, <- app_assoc.
    + by rewrite Hc, Hi.
    + eapply Forall_lookup_1 in Hq; [|done]. done.
    + done.
  - right. assert (drained (ui m)) as Hd.
    { unfold drained. rewrite Hc, Hi. lia. }
    destruct (execute_next_drained_log m Hd) as (ps & Hl & Hc' & Hp').
    unfold finished_run, in_flight. rewrite Hl, Hc', Hp', Hp, Hlog.
    repeat split; [done|lia|]. exists ps. by rewrite <- app_assoc.
Qed.

Lemma deliver_ready q log0 bs outs c m :
  at_command q log0 bs outs m →
  at_command q log0 bs (outs ++ [c]) (fst (deliver (ReadyRead c) m)).
Proof.
  intros (Hc & Hp & Hi & cmd & Hcmd & Hlog).
  assert (log (fst (deliver (ReadyRead c) m)) = log m ++ output_effect c
          ∧ ui (fst (deliver (ReadyRead c) m)) = ui m) as [Hl Hu].
  { destruct c as [d|e]; simpl; [|done].
    destruct (strip_nonempty d); simpl; [done|]. by rewrite app_nil_r. }
  unfold at_command. rewrite Hu, Hl, Hlog. repeat split; try done.
  exists cmd. split; [done|].
  rewrite flat_map_app. cbn [flat_map].
  by rewrite app_nil_r, <- !app_assoc.
Qed.

Lemma deliver_finished q log0 bs outs code st m :
  Forall (fun c => c ≠ []) q →
  at_command q log0 bs outs m →
  let b := {| outputs := outs; exit_code := code; status := st |} in
  at_command q log0 (bs ++ [b]) [] (fst (deliver (Finished code st) m))
  ∨ finished_run q log0 (bs ++ [b]) (fst (deliver (Finished code st) m)).
Proof.
  intros Hq (Hc & Hp & Hi & cmd & Hcmd & Hlog) b.
  change (deliver (Finished code st) m)
    with (execute_next
            (emit (ConsoleAppend (finished_line code st))
               (with_ui (set_process (Some NotRunning)) m))).
  apply schedule; simpl; try done.
  - rewrite length_app. simpl. lia.
  - apply lookup_lt_Some in Hcmd. rewrite length_app. simpl. lia.
  - rewrite Hlog, (transcript_snoc q bs cmd b) by done.
    unfold block. by rewrite <- !app_assoc.
Qed.



(** An exception raised by a slot ends the run: no process is in
    flight afterwards. *)
Lemma raise_ends_run sig m e :
  snd (deliver sig m) = Raise e → in_flight (fst (deliver sig m)) = false.
Proof.
  destruct sig as [c|code st|err].
  - destruct c as [d|msg]; simpl; [|done]. by destruct (strip_nonempty d).
  - change (deliver (Finished code st) m)
      with (execute_next
              (emit (ConsoleAppend (finished_line code st))
                 (with_ui (set_process (Some NotRunning)) m))).
    set (m2 := emit _ _).
    assert (process (ui m2) = Some NotRunning) as Hp by done.
    clearbody m2. clear m. intros Hr.
    destruct (decide (drained (ui m2))) as [Hd|Hd].
    + destruct (execute_next_drained_log m2 Hd) as (_ & _ & _ & Hp').
      unfold in_flight. by rewrite Hp', Hp.
    + revert Hr. unfold drained in Hd. unfold execute_next, bind, gets.
      destruct (Nat.leb_spec (length (commands (ui m2)))
                  (current_index (ui m2))); [lia|].
      destruct (commands (ui m2) !! current_index (ui m2)) as [cmd|];
        [|intros _; unfold in_flight; simpl; by rewrite Hp].
      unfold console_append, modify, try_start, bind, gets. simpl.
      rewrite Hp. destruct cmd; simpl; [|done].
      intros _. unfold in_flight. simpl. by rewrite Hp.
  - by destruct err.
Qed.

Lemma deliver_all_app s1 s2 m :
  deliver_all (s1 ++ s2) m = deliver_all s1 m ≫= deliver_all s2.
Proof.
  revert m. induction s1 as [|s s1 IH]; intros m; simpl; [done|].
  by destruct (in_flight m).
Qed.

Lemma deliver_outputs q log0 bs outs m :
  at_command q log0 bs [] m →
  ∃ m', deliver_all (ReadyRead <$> outs) m = Some m'
        ∧ at_command q log0 bs outs m'.
Proof.
  intros Hat. induction outs as [|c outs (m' & Hrun & Hat')] using rev_ind.
  - by exists m.
  - exists (fst (deliver (ReadyRead c) m')). split.
    + rewrite fmap_app. apply deliver_all_snoc. exists m'.
      repeat split; [done|].
      destruct Hat' as (_ & Hp & _). unfold in_flight. by rewrite Hp.
    + by apply deliver_ready.
Qed.

(** Every behaviour of the commands is accepted, and the run ends. *)
Lemma run_complete q log0 m1 bs :
  Forall (fun c => c ≠ []) q →
  at_command q log0 [] [] m1 ∨ finished_run q log0 [] m1 →
  length bs ≤ length q →
  ∃ m, deliver_all (flat_map signals_of bs) m1 = Some m
       ∧ (length bs < length q → at_command q log0 bs [] m)
       ∧ (length bs = length q → finished_run q log0 bs m).
Proof.
  intros Hq Hinit.
  induction bs as [|b bs IH] using rev_ind; intros Hlen.
  - exists m1. split; [done|]. split; intros Hl.
    + destruct Hinit as [|(_ & _ & Hl' & _)]; [done|]. simpl in *. lia.
    + destruct Hinit as [(_ & _ & _ & cmd & Hcmd & _)|]; [|done].
      apply lookup_lt_Some in Hcmd. simpl in *. lia.
  - rewrite length_app in Hlen. simpl in Hlen.
    destruct IH as (m & Hrun & Hat & _); [lia|].
    specialize (Hat ltac:(lia)).
    destruct (deliver_outputs q log0 bs (outputs b) m Hat)
      as (m' & Hrun' & Hat').
    exists (fst (deliver (Finished (exit_code b) (status b)) m')).
    split.
    + rewrite flat_map_app, deliver_all_app, Hrun. simpl.
      rewrite app_nil_r. unfold signals_of. apply deliver_all_snoc.
      exists m'. repeat split; [done|].
      destruct Hat' as (_ & Hp & _). unfold in_flight. by rewrite Hp.
    + destruct (deliver_finished q log0 bs (outputs b) (exit_code b)
                  (status b) m' Hq Hat') as [H|H];
        (replace {| outputs := outputs b; exit_code := exit_code b;
                    status := status b |} with b in H by (by destruct b));
        split; intros Hl; try done.
      * destruct H as (_ & _ & _ & cmd & Hcmd & _).
        apply lookup_lt_Some in Hcmd. lia.
      * destruct H as (_ & _ & Hl' & _). lia.
Qed.

End Runner.

(** ** The planner *)

Section Planner.

Import PyStr Lib Spec App.

Lemma save_settings_ok m : snd (save_settings m) = Ok tt.
Proof. unfold save_settings, bind, gets. simpl. by destruct (config_error (env m)). Qed.

Lemma save_settings_frame m :
  ui (fst (save_settings m)) = ui m
  ∧ search_path (env (fst (save_settings m))) = search_path (env m)
  ∧ system (env (fst (save_settings m))) = system (env m)
  ∧ nodes (env (fst (save_settings m))) = nodes (env m)
  ∧ ∃ e, log (fst (save_settings m)) = log m ++ [e]
         ∧ started [e] = [] ∧ removed [e] = []
         ∧ (dialogs [e] = [] ∨ ∃ text, dialogs [e] = [(Warning, "Warning", text)]).
Proof.
  unfold save_settings, bind, gets. simpl.
  destruct (config_error (env m)) as [err|]; simpl; repeat split; eauto 10.
Qed.

Lemma prepare_ui m :
  ui (prepare m) = reset (set_run_enabled false (ui m)).
Proof.
  unfold prepare. simpl. by destruct (save_settings_frame (emit ConsoleClear (with_ui (set_run_enabled false) m))) as (-> & _).
Qed.

Lemma prepare_env m :
  search_path (env (prepare m)) = search_path (env m)
  ∧ system (env (prepare m)) = system (env m)
  ∧ nodes (env (prepare m)) = nodes (env m).
Proof.
  unfold prepare. simpl. by destruct (save_settings_frame (emit ConsoleClear (with_ui (set_run_enabled false) m))) as (_ & -> & -> & -> & _).
Qed.

Lemma prepare_log m :
  ∃ e, log (prepare m) = log m ++ [ConsoleClear; e]
       ∧ started [e] = [] ∧ removed [e] = []
       ∧ (dialogs [e] = [] ∨ ∃ text, dialogs [e] = [(Warning, "Warning", text)]).
Proof.
  unfold prepare. simpl.
  destruct (save_settings_frame (emit ConsoleClear (with_ui (set_run_enabled false) m))) as (_ & _ & _ & _ & e & -> & H).
  exists e. split; [|done]. simpl. by rewrite <- app_assoc.
Qed.

Lemma start_mode_unfold m :
  start_mode m =
  let m1 := prepare m in
  match find_apktool (env m1) with
  | Some apktool =>
      if truthy apktool then
        match branch (page (ui m)) (choose_executor (env m1) apktool)
                (settings (ui m)) m1 with
        | (m2, Ok true) =>
            execute_next (with_ui (set_process (Some NotRunning)) m2)
        | (m2, Ok false) => (m2, Ok tt)
        | (m2, Raise e) => (m2, Raise e)
        end
      else
        (with_ui (set_run_enabled true)
           (emit (MessageBox Critical "Error"
                    "Please install apktool and add to PATH.") m1), Ok tt)
  | None =>
      (with_ui (set_run_enabled true)
         (emit (MessageBox Critical "Error"
                  "Please install apktool and add to PATH.") m1), Ok tt)
  end.
Proof.
  unfold start_mode, prepare.
  unfold bind at 1. unfold modify at 1.
  unfold bind at 1. unfold console_clear at 1. unfold modify at 1.
  cbn [with_ui emit ui env log].
  unfold bind at 1.
  pose proof (save_settings_ok (emit ConsoleClear (with_ui (set_run_enabled false) m))) as Hok.
  pose proof (save_settings_frame (emit ConsoleClear (with_ui (set_run_enabled false) m))) as (Hui & _).
  destruct (save_settings _) as [m1 r]. simpl in Hok, Hui. subst r.
  unfold bind, gets, reads, gets, modify. cbn [with_ui emit ui env log fst].
  rewrite Hui. cbn [page settings set_run_enabled].
  destruct (find_apktool (env m1)) as [apktool|]; [|done].
  cbn [truthy_opt negb default]. destruct (truthy apktool); [|done].
  cbn [negb]. unfold message_box, modify.
  destruct (page (ui m)); cbn [currentIndex Nat.eqb branch];
    unfold reset; cbn [env with_ui id];
    match goal with
    | |- context [plan_dump ?a ?b ?c] =>
        destruct (plan_dump a b c) as [m2 [[]|e]]
    | |- context [plan_pack ?a ?b ?c] =>
        destruct (plan_pack a b c) as [m2 [[]|e]]
    | |- context [plan_keystore ?a ?b] =>
        destruct (plan_keystore a b) as [m2 [[]|e]]
    end; reflexivity.
Qed.

Lemma truthy_true s : truthy s = true ↔ s ≠ "".
Proof.
  unfold truthy. destruct (String.eqb_spec s ""); simpl; split; congruence.
Qed.

Lemma find_apktool_ext o1 o2 :
  search_path o1 = search_path o2 → find_apktool o1 = find_apktool o2.
Proof. unfold find_apktool, which. by intros ->. Qed.

Lemma choose_executor_ext o1 o2 t :
  search_path o1 = search_path o2 → nodes o1 = nodes o2 →
  choose_executor o1 t = choose_executor o2 t.
Proof. unfold choose_executor, which, isfile. by intros -> ->. Qed.

Lemma locate_build_tools_ext o1 o2 sdk :
  system o1 = system o2 → nodes o1 = nodes o2 →
  locate_build_tools o1 sdk = locate_build_tools o2 sdk.
Proof.
  unfold locate_build_tools, listdir, exe_suffix. by intros -> ->.
Qed.

Lemma choose_executor_nonempty o t : choose_executor o t ≠ [].
Proof.
  unfold choose_executor. destruct (_ && _); [|done]. by destruct (isfile _ _).
Qed.

Lemma find_none_creatable n p :
  creatable n p → List.find (isfile_at n) (chain p) = None.
Proof.
  unfold creatable. induction 1 as [|q l Hq _ IH]; simpl; [done|].
  by rewrite Hq.
Qed.

Lemma mkdir_at_keeps q n p x :
  n !! p = Some x → mkdir_at q n !! p = Some x.
Proof.
  intros Hp. unfold mkdir_at. destruct (n !! q) eqn:E; [done|].
  destruct (decide (q = p)) as [->|Hne]; [congruence|].
  by rewrite lookup_insert_ne.
Qed.

Lemma makedirs_creates n p :
  creatable n p → isdir_at (fold_right mkdir_at n (chain p)) p = true.
Proof.
  unfold creatable, chain. intros Hc.
  rewrite Forall_app, Forall_singleton in Hc. destruct Hc as [_ Hp].
  rewrite fold_right_app. simpl.
  assert (mkdir_at p n !! p = Some Dir) as Hdir.
  { unfold mkdir_at, isfile_at in *.
    destruct (n !! p) as [[]|] eqn:E; rewrite ?E in Hp; [done|done|].
    by rewrite lookup_insert_eq. }
  assert (fold_right mkdir_at (mkdir_at p n)
            (rev (ancestors (String.length p) p)) !! p = Some Dir) as Hl.
  { induction (rev _) as [|q l IH]; simpl; [done|].
    by apply mkdir_at_keeps. }
  unfold isdir_at. by rewrite Hl.
Qed.

Lemma plan_dump_valid exe s m apk out :
  s !! "dump_file" = Some apk → s !! "dump_out" = Some out →
  apk ≠ "" → out ≠ "" →
  creatable (nodes (env m)) (dump_target apk out) →
  plan_dump exe s m
  = ({| ui := set_commands
                (commands (ui m)
                   ++ [exe ++ ["d"; "-f"; apk; "-o"; dump_target apk out]])
                (ui m);
        env := set_nodes (fold_right mkdir_at (nodes (env m))
                            (chain (dump_target apk out))) (env m);
        log := log m ++ [MakeDirs (dump_target apk out)] |}, Ok true).
Proof.
  intros Ha Ho Hta Hto Hc. unfold plan_dump, bind, getitem.
  rewrite Ha, Ho. cbn [ret].
  apply truthy_true in Hta, Hto. rewrite Hta, Hto. cbn [negb orb].
  unfold makedirs, bind, reads, gets. cbn [env].
  by rewrite find_none_creatable.
Qed.

Lemma plan_dump_invalid exe s m apk out :
  s !! "dump_file" = Some apk → s !! "dump_out" = Some out →
  apk = "" ∨ out = "" →
  plan_dump exe s m
  = (with_ui (set_run_enabled true)
       (emit (MessageBox Warning "Error" "Please fill in Dump fields.") m),
     Ok false).
Proof.
  intros Ha Ho Hempty. unfold plan_dump, bind, getitem.
  rewrite Ha, Ho. cbn [ret].
  assert (negb (truthy apk) || negb (truthy out) = true) as ->; [|done].
  destruct Hempty as [->| ->]; [done|]. apply orb_true_r.
Qed.

Lemma plan_pack_invalid exe s m proj ks ksp :
  s !! "pack_dir" = Some proj → s !! "keystore_path" = Some ks →
  s !! "keystore_pass" = Some ksp →
  proj = "" ∨ ks = "" ∨ ksp = "" →
  plan_pack exe s m
  = (with_ui (set_run_enabled true)
       (emit (MessageBox Warning "Error" "Please fill in Pack fields.") m),
     Ok false).
Proof.
  intros Hp Hk Hkp Hempty. unfold plan_pack, bind, getitem.
  rewrite Hp, Hk, Hkp. cbn [ret].
  assert (negb (truthy proj) || negb (truthy ks) || negb (truthy ksp) = true)
    as ->; [|done].
  destruct Hempty as [->|[->| ->]]; [done| |apply orb_true_r].
  by rewrite orb_true_r.
Qed.

Lemma plan_keystore_invalid s m kout alias apw :
  s !! "keystore_out" = Some kout → s !! "gen_alias" = Some alias →
  s !! "gen_alias_pass" = Some apw →
  kout = "" ∨ alias = "" ∨ apw = "" →
  plan_keystore s m
  = (with_ui (set_run_enabled true)
       (emit (MessageBox Warning "Error" "Please fill in Keystore fields.") m),
     Ok false).
Proof.
  intros Hp Hk Hkp Hempty. unfold plan_keystore, bind, getitem.
  rewrite Hp, Hk, Hkp. cbn [ret].
  assert (negb (truthy kout) || negb (truthy alias) || negb (truthy apw) = true)
    as ->; [|done].
  destruct Hempty as [->|[->| ->]]; [done| |apply orb_true_r].
  by rewrite orb_true_r.
Qed.

Lemma plan_keystore_missing s m kout :
  s !! "keystore_out" = Some kout → s !! "gen_alias" = None →
  plan_keystore s m = (m, Raise (KeyError "gen_alias")).
Proof.
  intros Hk Ha. unfold plan_keystore, bind, getitem. by rewrite Hk, Ha.
Qed.

Lemma plan_pack_valid exe s m proj ks ksp sdk za asgn :
  s !! "pack_dir" = Some proj → s !! "keystore_path" = Some ks →
  s !! "keystore_pass" = Some ksp → s !! "sdk_path" = Some sdk →
  proj ≠ "" → ks ≠ "" → ksp ≠ "" →
  locate_build_tools (env m) sdk = Ok (za, asgn) →
  plan_pack exe s m
  = ({| ui := set_commands
                (commands (ui m) ++ pack_queue exe proj ks ksp za asgn)
                (set_aligned_apk (Some (aligned_path proj))
                   (set_built_apk (Some (built_path proj)) (ui m)));
        env := env m;
        log := log m |}, Ok true).
Proof.
  intros Hp Hk Hkp Hs Htp Htk Htkp Hloc. unfold plan_pack, bind, getitem.
  rewrite Hp, Hk, Hkp, Hs. cbn [ret].
  apply truthy_true in Htp, Htk, Htkp. rewrite Htp, Htk, Htkp.
  cbn [negb orb]. unfold modify, append_command, modify, reads, gets, lift.
  cbn [with_ui env ui emit log]. rewrite Hloc. cbn [fst snd wrap add_list ret].
  unfold pack_queue, with_ui. cbn [ui env log commands set_commands
    set_built_apk set_aligned_apk]. cbn [wrap].
  by rewrite <- !app_assoc.
Qed.

Lemma plan_pack_tools_fail exe s m proj ks ksp sdk e :
  s !! "pack_dir" = Some proj → s !! "keystore_path" = Some ks →
  s !! "keystore_pass" = Some ksp → s !! "sdk_path" = Some sdk →
  proj ≠ "" → ks ≠ "" → ksp ≠ "" →
  locate_build_tools (env m) sdk = Raise e →
  plan_pack exe s m
  = ({| ui := set_commands
                (commands (ui m) ++ [exe ++ ["b"; proj; "-o"; built_path proj]])
                (set_built_apk (Some (built_path proj)) (ui m));
        env := env m;
        log := log m |}, Raise e).
Proof.
  intros Hp Hk Hkp Hs Htp Htk Htkp Hloc. unfold plan_pack, bind, getitem.
  rewrite Hp, Hk, Hkp, Hs. cbn [ret].
  apply truthy_true in Htp, Htk, Htkp. rewrite Htp, Htk, Htkp.
  cbn [negb orb]. unfold modify, append_command, modify, reads, gets, lift.
  cbn [with_ui env ui emit log]. by rewrite Hloc.
Qed.

Lemma start_mode_located m t :
  find_apktool (env m) = Some t → t ≠ "" →
  start_mode m =
  match branch (page (ui m)) (choose_executor (env m) t)
          (settings (ui m)) (prepare m) with
  | (m2, Ok true) =>
      execute_next (with_ui (set_process (Some NotRunning)) m2)
  | (m2, Ok false) => (m2, Ok tt)
  | (m2, Raise e) => (m2, Raise e)
  end.
Proof.
  intros Hf Ht. rewrite start_mode_unfold. cbn zeta.
  destruct (prepare_env m) as (Hs & _ & Hn).
  rewrite (find_apktool_ext _ (env m)), Hf by done.
  apply truthy_true in Ht. rewrite Ht.
  by rewrite (choose_executor_ext _ (env m)).
Qed.

(** C7 (amended). On the Dump page, with a non-empty source package
    and a non-empty output directory, once apktool is located and no
    regular file is in the way: the target is the normalised join
    ([os.path.normpath]) of the output directory and the base name of
    the package without its extension; the directory exists afterwards;
    the queue is the single command [<tool> d -f <source> -o <target>],
    and it is the one command started. For [/tmp/app.apk] and [/out]
    the target is [/out/app]. *)
Theorem dump_plan (m : machine) (apk out t : string) :
  page (ui m) = Dump →
  settings (ui m) !! "dump_file" = Some apk →
  settings (ui m) !! "dump_out" = Some out →
  apk ≠ "" → out ≠ "" →
  find_apktool (env m) = Some t → t ≠ "" →
  creatable (nodes (env m)) (dump_target apk out) →
  let target :=
    os_path.normpath
      (os_path.join out [fst (os_path.splitext (os_path.basename apk))]) in
  let cmd := choose_executor (env m) t ++ ["d"; "-f"; apk; "-o"; target] in
  ∃ m', start_mode m = (m', Ok tt)
        ∧ commands (ui m') = [cmd]
        ∧ isdir_at (nodes (env m')) target = true
        ∧ started (log m') = started (log m) ++ [cmd]
        ∧ dump_target "/tmp/app.apk" "/out" = "/out/app".
Proof.
  intros Hpage Ha Ho Hta Hto Hf Ht Hc target cmd.
  rewrite (start_mode_located m t) by done. rewrite Hpage. cbn [branch].
  destruct (prepare_env m) as (_ & _ & Hn).
  rewrite (plan_dump_valid _ _ _ apk out) by (by rewrite ?Hn).
  rewrite (execute_next_launch _ cmd).
  - eexists. split; [done|]. cbn [ui env log with_ui set_commands commands
      set_current_index set_process nodes set_nodes].
    rewrite prepare_ui. cbn [reset commands set_commands set_built_apk
      set_aligned_apk set_current_index app]. split; [done|].
    rewrite Hn. split; [by apply makedirs_creates|]. split; [|done].
    destruct (prepare_log m) as (e & -> & He & _).
    rewrite !started_app.
    change (started [ConsoleClear; e]) with (started [e]). rewrite He.
    unfold cmd. destruct (choose_executor (env m) t) eqn:E.
    { by apply choose_executor_nonempty in E. }
    rewrite !app_nil_r. done.
  - cbn [ui with_ui set_process commands current_index set_commands].
    by rewrite prepare_ui.
  - unfold cmd. intros E. apply app_eq_nil in E as [E _].
    by apply choose_executor_nonempty in E.
  - done.
Qed.

(** C2 (amended). On the Pack page the three artifact paths depend on
    the project directory alone: with [name] the base name of the
    project directory, its last extension stripped ([os.path.splitext]),
    followed by [.apk], they are the normalised joins
    ([os.path.normpath]) of the parent directory with [name],
    [aligned_name] and [signed_name]; these names are their last
    components, and the three commands of the queue use them. For
    [/x/MyApp] they are [/x/MyApp.apk], [/x/aligned_MyApp.apk] and
    [/x/signed_MyApp.apk]. *)
Theorem pack_plan (m : machine) (proj ks ksp sdk t za asgn : string) :
  page (ui m) = Pack →
  settings (ui m) !! "pack_dir" = Some proj →
  settings (ui m) !! "keystore_path" = Some ks →
  settings (ui m) !! "keystore_pass" = Some ksp →
  settings (ui m) !! "sdk_path" = Some sdk →
  proj ≠ "" → ks ≠ "" → ksp ≠ "" →
  find_apktool (env m) = Some t → t ≠ "" →
  locate_build_tools (env m) sdk = Ok (za, asgn) →
  let dir := os_path.dirname proj in
  let name := fst (os_path.splitext (os_path.basename proj)) +:+ ".apk" in
  let built := os_path.normpath (os_path.join dir [name]) in
  let aligned := os_path.normpath (os_path.join dir ["aligned_" +:+ name]) in
  let signed := os_path.normpath (os_path.join dir ["signed_" +:+ name]) in
  ∃ m', start_mode m = (m', Ok tt)
        ∧ built_apk (ui m') = Some built
        ∧ aligned_apk (ui m') = Some aligned
        ∧ commands (ui m')
          = [choose_executor (env m) t ++ ["b"; proj; "-o"; built];
             wrapped za ++ ["-v"; "-p"; "4"; built; aligned];
             wrapped asgn
               ++ ["sign"; "-v"; "--ks"; ks; "--ks-pass"; "pass:" +:+ ksp;
                   "--out"; signed; aligned]]
        ∧ os_path.basename built = name
        ∧ os_path.basename aligned = "aligned_" +:+ name
        ∧ os_path.basename signed = "signed_" +:+ name
        ∧ (built_path "/x/MyApp", aligned_path "/x/MyApp",
           signed_path "/x/MyApp")
          = ("/x/MyApp.apk", "/x/aligned_MyApp.apk", "/x/signed_MyApp.apk").
Proof.
  intros Hpage Hp Hk Hkp Hs Htp Htk Htkp Hf Ht Hloc dir name built aligned
    signed.
  rewrite (start_mode_located m t) by done. rewrite Hpage. cbn [branch].
  destruct (prepare_env m) as (_ & Hsys & Hn).
  rewrite (plan_pack_valid _ _ _ proj ks ksp sdk za asgn);
    [|done..|by rewrite (locate_build_tools_ext _ (env m))].
  set (exe := choose_executor (env m) t).
  rewrite (execute_next_launch _ (exe ++ ["b"; proj; "-o"; built])).
  - eexists. split; [done|].
    cbn [ui env log with_ui set_commands commands set_current_index
      set_process built_apk aligned_apk set_aligned_apk set_built_apk].
    rewrite prepare_ui. cbn [reset commands set_commands set_built_apk
      set_aligned_apk set_current_index app].
    repeat split; try done.
    + apply basename_built.
    + apply basename_aligned.
    + apply basename_signed.
  - cbn [ui with_ui set_process commands current_index set_commands
      set_aligned_apk set_built_apk].
    by rewrite prepare_ui.
  - intros E. apply app_eq_nil in E as [E _].
    by apply choose_executor_nonempty in E.
  - done.
Qed.

(** C10. A Pack run that passes validation, with a non-empty SDK root
    whose build-tools directory is absent or has no entry: [start_mode]
    raises ([FileNotFoundError] from the listing, [IndexError] from the
    first element of the empty sorted list) instead of falling back to
    the bare tool names; no process is started during planning, and
    none can be afterwards, since no process object is running. *)
Theorem sdk_without_build_tools (m : machine) (proj ks ksp sdk t : string) :
  page (ui m) = Pack →
  settings (ui m) !! "pack_dir" = Some proj →
  settings (ui m) !! "keystore_path" = Some ks →
  settings (ui m) !! "keystore_pass" = Some ksp →
  settings (ui m) !! "sdk_path" = Some sdk →
  proj ≠ "" → ks ≠ "" → ksp ≠ "" → sdk ≠ "" →
  find_apktool (env m) = Some t → t ≠ "" →
  let d := os_path.join sdk ["build-tools"] in
  nodes (env m) !! d = None
  ∨ (nodes (env m) !! d = Some Dir ∧ entries (nodes (env m)) d = []) →
  ∃ m' e, start_mode m = (m', Raise e)
          ∧ (e = FileNotFoundError d ∨ e = IndexError)
          ∧ locate_build_tools (env m) sdk = Raise e
          ∧ started (log m') = started (log m)
          ∧ process (ui m') = process (ui m)
          ∧ (in_flight m = false →
             ∀ sig sigs, deliver_all (sig :: sigs) m' = None).
Proof.
  intros Hpage Hp Hk Hkp Hs Htp Htk Htkp Hts Hf Ht d Hd.
  assert (∃ e, locate_build_tools (env m) sdk = Raise e
               ∧ (e = FileNotFoundError d ∨ e = IndexError))
    as (e & Hloc & He).
  { unfold locate_build_tools, listdir. apply truthy_true in Hts.
    rewrite Hts. fold d.
    destruct Hd as [->|[-> ->]]; eauto. }
  rewrite (start_mode_located m t) by done. rewrite Hpage. cbn [branch].
  destruct (prepare_env m) as (_ & Hsys & Hn).
  rewrite (plan_pack_tools_fail _ _ _ proj ks ksp sdk e);
    [|done..|by rewrite (locate_build_tools_ext _ (env m))].
  eexists _, e. split; [done|]. split; [done|]. split; [done|].
  cbn [ui env log with_ui set_commands process set_built_apk].
  rewrite prepare_ui. cbn [reset process set_commands set_built_apk
      set_aligned_apk set_current_index set_run_enabled].
  split; [|split; [done|]].
  - destruct (prepare_log m) as (e' & -> & He' & _).
    rewrite started_app.
    change (started [ConsoleClear; e']) with (started [e']).
    by rewrite He', app_nil_r.
  - intros Hfl sig sigs. cbn [deliver_all].
    unfold in_flight in *. cbn [ui process set_commands set_built_apk].
    rewrite ?prepare_ui. cbn [reset process set_commands set_built_apk
      set_aligned_apk set_current_index set_run_enabled].
    by destruct (process (ui m)) as [[]|].
Qed.

End Planner.

(** ** Tool selection, wrapping and validation *)

Section Tools.

Import PyStr Lib Spec App.

Lemma leb_le a b : String.leb a b = true ↔ String.le a b.
Proof. unfold String.le. by rewrite Is_true_true. Qed.

Lemma insert_desc_nonempty x l : insert_desc x l ≠ [].
Proof. destruct l as [|y t]; simpl; [done|]. by destruct (String.leb y x). Qed.

(** The first element of [sorted(l, reverse=True)] is a greatest
    element of [l]. *)
Lemma sorted_reverse_head l bt r :
  sorted_reverse l = bt :: r →
  bt ∈ l ∧ ∀ n, n ∈ l → String.leb n bt = true.
Proof.
  revert bt r. induction l as [|x l IH]; intros bt r; [done|].
  unfold sorted_reverse. cbn [fold_right]. fold (sorted_reverse l).
  destruct (sorted_reverse l) as [|y t] eqn:E.
  - assert (l = []) as ->.
    { destruct l as [|z l]; [done|]. unfold sorted_reverse in E.
      cbn [fold_right] in E. by apply insert_desc_nonempty in E. }
    intros [= <- <-]. split; [apply list_elem_of_here|].
    intros n Hn. apply list_elem_of_singleton in Hn as ->.
    apply leb_le. reflexivity.
  - destruct (IH y t eq_refl) as [Hy Hmax].
    cbn [insert_desc]. destruct (String.leb y x) eqn:Hyx.
    + intros [= <- <-]. split; [apply list_elem_of_here|].
      intros n Hn. apply elem_of_cons in Hn as [->|Hn].
      * apply leb_le. reflexivity.
      * apply leb_le. transitivity y; apply leb_le; auto.
    + intros [= <- <-]. split; [by apply list_elem_of_further|].
      intros n Hn. apply elem_of_cons in Hn as [->|Hn]; [|auto].
      destruct (String.leb_total x y) as [H|H]; [done|congruence].
Qed.

(** C6 (amended). With an SDK root configured and a non-empty listing
    of its build-tools directory, the name selected is a greatest one,
    in the order of string comparison, among all the entries listed,
    directories or not; zipalign and apksigner are resolved inside it,
    with the suffix [.exe] exactly on Windows. Without an SDK root the
    bare names are used. Among 29.0.2, 30.0.3 and 28.0.3 the name
    selected is 30.0.3. *)
Theorem build_tools_selection (o : os) (sdk : string) (names : list string) :
  sdk ≠ "" →
  listdir o (os_path.join sdk ["build-tools"]) = Ok names →
  names ≠ [] →
  ∃ bt, bt ∈ names
        ∧ (∀ n, n ∈ names → String.leb n bt = true)
        ∧ locate_build_tools o sdk
          = Ok (os_path.join sdk
                  ["build-tools"; bt; "zipalign" +:+ exe_suffix o],
                os_path.join sdk
                  ["build-tools"; bt; "apksigner" +:+ exe_suffix o])
        ∧ exe_suffix o = (if decide (system o = "Windows") then ".exe" else "")
        ∧ locate_build_tools o "" = Ok ("zipalign", "apksigner")
        ∧ hd_error (sorted_reverse ["29.0.2"; "30.0.3"; "28.0.3"])
          = Some "30.0.3".
Proof.
  intros Hs Hl Hne.
  destruct (sorted_reverse names) as [|bt r] eqn:E.
  { destruct names as [|x l]; [done|]. unfold sorted_reverse in E.
    cbn [fold_right] in E. by apply insert_desc_nonempty in E. }
  destruct (sorted_reverse_head _ _ _ E) as [Hin Hmax].
  exists bt. split; [done|]. split; [done|]. split.
  - unfold locate_build_tools. apply truthy_true in Hs. by rewrite Hs, Hl, E.
  - split; [|done]. unfold exe_suffix.
    destruct (String.eqb_spec (system o) "Windows"); by case_decide.
Qed.

(** C1 (amended). [wrap] turns every string into the shell form
    [cmd /c token], on every platform: the token is enclosed in double
    quotes when it contains a space character and does not begin with a
    double quote, and is the string itself otherwise. A list is
    returned unchanged. *)
Theorem wrap_shell_form :
  (∀ s, contains " " s = true →
        startswith s (String dquote "") = false →
        wrap (PStr s) = PList ["cmd"; "/c"; String dquote (s +:+ String dquote "")])
  ∧ (∀ s, contains " " s = false ∨ startswith s (String dquote "") = true →
          wrap (PStr s) = PList ["cmd"; "/c"; s])
  ∧ (∀ l, wrap (PList l) = PList l).
Proof.
  split; [|split].
  - intros s Hc Hq. unfold wrap. by rewrite Hc, Hq.
  - intros s [Hc|Hq]; unfold wrap.
    + by rewrite Hc.
    + rewrite Hq. by rewrite andb_false_r.
  - done.
Qed.

Lemma load_settings_keeps cfg s k :
  (∀ data, cfg = Some data → data !! k = None) →
  load_settings cfg s !! k = s !! k.
Proof.
  intros H. destruct cfg as [data|]; [|done]. simpl.
  apply lookup_union_r. by apply H.
Qed.

Lemma load_settings_overrides data s k v :
  data !! k = Some v → load_settings (Some data) s !! k = Some v.
Proof. intros H. simpl. by apply lookup_union_Some_l. Qed.

(** Whatever the configuration file holds, the seven keys of
    [__init__] are present afterwards. *)
Lemma init_has_defaults o k :
  is_Some (default_settings !! k) → is_Some (settings (ui (init o)) !! k).
Proof.
  intros [v Hv]. simpl. destruct (config o) as [data|]; simpl; [|eauto].
  destruct (data !! k) as [w|] eqn:E.
  - exists w. by apply lookup_union_Some_l.
  - exists v. by rewrite lookup_union_r.
Qed.

(** The alias keys are present only if the configuration file holds
    them. *)
Lemma init_alias o k :
  k = "gen_alias" ∨ k = "gen_alias_pass" →
  settings (ui (init o)) !! k = config o ≫= (.!! k).
Proof.
  intros Hk. simpl. destruct (config o) as [data|]; simpl.
  - destruct (data !! k) as [w|] eqn:E.
    + by apply lookup_union_Some_l.
    + rewrite lookup_union_r by done. by destruct Hk as [-> | ->].
  - by destruct Hk as [-> | ->].
Qed.

(** Validation: when the required keys are present and one of them is
    empty, the run stops with an error box and starts nothing. *)
Lemma validation_rejects m :
  (∀ k, k ∈ required (page (ui m)) → is_Some (settings (ui m) !! k)) →
  (∃ k, k ∈ required (page (ui m)) ∧ settings (ui m) !! k = Some "") →
  ∃ m', start_mode m = (m', Ok tt)
        ∧ commands (ui m') = []
        ∧ run_enabled (ui m') = true
        ∧ process (ui m') = process (ui m)
        ∧ started (log m') = started (log m)
        ∧ ∃ i text, last (log m') = Some (MessageBox i "Error" text)
                    ∧ i ≠ Information.
Proof.
  intros Hkeys (k & Hk & Hempty).
  assert (∀ m1 text i,
    m1 = with_ui (set_run_enabled true)
           (emit (MessageBox i "Error" text) (prepare m)) →
    i ≠ Information →
    commands (ui m1) = []
    ∧ run_enabled (ui m1) = true
    ∧ process (ui m1) = process (ui m)
    ∧ started (log m1) = started (log m)
    ∧ ∃ i text, last (log m1) = Some (MessageBox i "Error" text)
                ∧ i ≠ Information) as Hstop.
  { intros m1 text i -> Hi. cbn [ui log with_ui emit]. rewrite prepare_ui.
    repeat split; try done.
    - destruct (prepare_log m) as (e & -> & He & _).
      rewrite !started_app.
      change (started [ConsoleClear; e]) with (started [e]).
      rewrite He. simpl. by rewrite !app_nil_r.
    - exists i, text. by rewrite last_snoc. }
  rewrite start_mode_unfold. cbn zeta.
  destruct (find_apktool (env (prepare m))) as [t|];
    [|eexists; split; [done|]; by eapply Hstop].
  destruct (truthy t);
    [|eexists; split; [done|]; by eapply Hstop].
  set (exe := choose_executor _ _).
  assert (∀ key, key ∈ required (page (ui m)) →
            ∃ v, settings (ui m) !! key = Some v ∧ (key = k → v = ""))
    as Hget.
  { intros key Hin. destruct (Hkeys key Hin) as [v Hv]. exists v.
    split; [done|]. intros ->. congruence. }
  destruct (page (ui m)) eqn:Hpage; cbn [branch required] in *.
  - destruct (Hget "dump_file") as (apk & Ha & Hea); [in_list|].
    destruct (Hget "dump_out") as (out & Ho & Heo); [in_list|].
    rewrite (plan_dump_invalid _ _ _ apk out); [|done..|].
    + eexists; split; [done|]; by eapply Hstop.
    + apply elem_of_cons in Hk as [->|Hk]; [by left; apply Hea|].
      apply list_elem_of_singleton in Hk as ->. right. by apply Heo.
  - destruct (Hget "pack_dir") as (proj & Hp & Hep); [in_list|].
    destruct (Hget "keystore_path") as (ks & Hks & Heks); [in_list|].
    destruct (Hget "keystore_pass") as (ksp & Hksp & Heksp); [in_list|].
    rewrite (plan_pack_invalid _ _ _ proj ks ksp); [|done..|].
    + eexists; split; [done|]; by eapply Hstop.
    + apply elem_of_cons in Hk as [->|Hk]; [by left; apply Hep|].
      apply elem_of_cons in Hk as [->|Hk]; [by right; left; apply Heks|].
      apply list_elem_of_singleton in Hk as ->. right; right. by apply Heksp.
  - destruct (Hget "keystore_out") as (kout & Hko & Heko); [in_list|].
    destruct (Hget "gen_alias") as (al & Hal & Heal); [in_list|].
    destruct (Hget "gen_alias_pass") as (apw & Hapw & Heapw); [in_list|].
    rewrite (plan_keystore_invalid _ _ kout al apw); [|done..|].
    + eexists; split; [done|]; by eapply Hstop.
    + apply elem_of_cons in Hk as [->|Hk]; [by left; apply Heko|].
      apply elem_of_cons in Hk as [->|Hk]; [by right; left; apply Heal|].
      apply list_elem_of_singleton in Hk as ->. right; right. by apply Heapw.
Qed.

(** The Keystore page without an alias key: whatever else the settings
    hold, planning raises before any validation message. *)
Lemma keystore_page_raises m t :
  page (ui m) = KeystoreGen →
  is_Some (settings (ui m) !! "keystore_out") →
  settings (ui m) !! "gen_alias" = None →
  find_apktool (env m) = Some t → t ≠ "" →
  ∃ m', start_mode m = (m', Raise (KeyError "gen_alias"))
        ∧ run_enabled (ui m') = false
        ∧ commands (ui m') = []
        ∧ started (log m') = started (log m).
Proof.
  intros Hpage [kout Hk] Ha Hf Ht.
  rewrite (start_mode_located m t) by done. rewrite Hpage. cbn [branch].
  rewrite (plan_keystore_missing _ _ kout) by done.
  eexists. split; [done|]. rewrite prepare_ui. repeat split.
  destruct (prepare_log m) as (e & -> & He & _).
  rewrite started_app. change (started [ConsoleClear; e]) with (started [e]).
  by rewrite He, app_nil_r.
Qed.

(** [sorted_reverse] rearranges its argument. *)
Lemma insert_desc_perm x l : insert_desc x l ≡ₚ x :: l.
Proof.
  induction l as [|y l IH]; simpl; [done|].
  destruct (String.leb y x); [done|]. rewrite IH. apply Permutation_swap.
Qed.

Lemma sorted_reverse_perm l : sorted_reverse l ≡ₚ l.
Proof.
  induction l as [|x l IH]; [done|].
  unfold sorted_reverse. cbn [fold_right]. fold (sorted_reverse l).
  by rewrite insert_desc_perm, IH.
Qed.

End Tools.

(** ** Instances *)

Section Concrete.

Import PyStr Lib Spec App Examples.

Lemma wrap_shell_form_witness :
  wrap (PStr "C:\Program Files\sdk\zipalign.exe")
  = PList ["cmd"; "/c";
           String dquote ("C:\Program Files\sdk\zipalign.exe"
                            +:+ String dquote "")].
Proof. apply (proj1 wrap_shell_form); reflexivity. Defined.

Lemma wrap_plain_name_changed :
  has_whitespace "zipalign" = false
  ∧ wrap (PStr "zipalign") = PList ["cmd"; "/c"; "zipalign"]
  ∧ wrap (PStr "zipalign") ≠ PStr "zipalign".
Proof. split; [reflexivity|]. split; [reflexivity|discriminate]. Qed.

(** A tab is white space, yet only the space character triggers the
    quoting. *)
Lemma wrap_tab_not_quoted :
  let s := String "a" (String "009" "b") in
  has_whitespace s = true ∧ wrap (PStr s) = PList ["cmd"; "/c"; s].
Proof. split; reflexivity. Qed.

Lemma dump_plan_witness :
  ∃ m', start_mode dump_example = (m', Ok tt)
        ∧ commands (ui m')
          = [choose_executor (env dump_example) "/usr/bin/apktool"
               ++ ["d"; "-f"; "/tmp/app.apk"; "-o";
                   dump_target "/tmp/app.apk" "/out"]]
        ∧ isdir_at (nodes (env m')) (dump_target "/tmp/app.apk" "/out") = true
        ∧ started (log m')
          = started (log dump_example)
              ++ [choose_executor (env dump_example) "/usr/bin/apktool"
                    ++ ["d"; "-f"; "/tmp/app.apk"; "-o";
                        dump_target "/tmp/app.apk" "/out"]]
        ∧ dump_target "/tmp/app.apk" "/out" = "/out/app".
Proof.
  apply (dump_plan dump_example "/tmp/app.apk" "/out" "/usr/bin/apktool");
    try reflexivity; try discriminate.
  vm_compute. repeat constructor.
Defined.

(** The queue of the Dump example, spelled out. *)
Example dump_example_queue :
  commands (ui (fst (start_mode dump_example)))
  = [["/usr/bin/apktool"; "d"; "-f"; "/tmp/app.apk"; "-o"; "/out/app"]].
Proof. by vm_compute. Qed.

Lemma dump_target_counterexample :
  commands (ui (fst (start_mode dump_relative)))
  = [["/usr/bin/apktool"; "d"; "-f"; "/tmp/app.apk"; "-o"; "out/app"]]
  ∧ claimed_dump_target "/tmp/app.apk" "./out" = "./out/app"
  ∧ dump_target "/tmp/app.apk" "./out"
    ≠ claimed_dump_target "/tmp/app.apk" "./out".
Proof.
  split; [by vm_compute|]. split; [by vm_compute|]. by vm_compute.
Qed.

Lemma pack_plan_witness :
  ∃ m', start_mode pack_example = (m', Ok tt)
        ∧ built_apk (ui m') = Some (built_path "/x/MyApp")
        ∧ aligned_apk (ui m') = Some (aligned_path "/x/MyApp")
        ∧ commands (ui m')
          = [choose_executor (env pack_example) "/usr/bin/apktool"
               ++ ["b"; "/x/MyApp"; "-o"; built_path "/x/MyApp"];
             wrapped "zipalign"
               ++ ["-v"; "-p"; "4"; built_path "/x/MyApp";
                   aligned_path "/x/MyApp"];
             wrapped "apksigner"
               ++ ["sign"; "-v"; "--ks"; "/k.jks"; "--ks-pass";
                   "pass:" +:+ "secret"; "--out"; signed_path "/x/MyApp";
                   aligned_path "/x/MyApp"]]
        ∧ os_path.basename (built_path "/x/MyApp") = apkname "/x/MyApp"
        ∧ os_path.basename (aligned_path "/x/MyApp")
          = "aligned_" +:+ apkname "/x/MyApp"
        ∧ os_path.basename (signed_path "/x/MyApp")
          = "signed_" +:+ apkname "/x/MyApp"
        ∧ (built_path "/x/MyApp", aligned_path "/x/MyApp",
           signed_path "/x/MyApp")
          = ("/x/MyApp.apk", "/x/aligned_MyApp.apk", "/x/signed_MyApp.apk").
Proof.
  apply (pack_plan pack_example "/x/MyApp" "/k.jks" "secret" ""
           "/usr/bin/apktool" "zipalign" "apksigner");
    try reflexivity; discriminate.
Defined.

(** The queue of the Pack example, spelled out. *)
Example pack_example_queue :
  commands (ui (fst (start_mode pack_example)))
  = [["/usr/bin/apktool"; "b"; "/x/MyApp"; "-o"; "/x/MyApp.apk"];
     ["cmd"; "/c"; "zipalign"; "-v"; "-p"; "4"; "/x/MyApp.apk";
      "/x/aligned_MyApp.apk"];
     ["cmd"; "/c"; "apksigner"; "sign"; "-v"; "--ks"; "/k.jks";
      "--ks-pass"; "pass:secret"; "--out"; "/x/signed_MyApp.apk";
      "/x/aligned_MyApp.apk"]].
Proof. by vm_compute. Qed.

Lemma pack_paths_counterexample :
  built_apk (ui (fst (start_mode pack_dotted))) = Some "/x/My.apk"
  ∧ claimed_built_path "/x/My.App" = "/x/My.App.apk"
  ∧ built_path "/x/My.App" ≠ claimed_built_path "/x/My.App".
Proof.
  split; [by vm_compute|]. split; [by vm_compute|]. by vm_compute.
Qed.

Lemma build_tools_selection_witness :
  ∃ bt, bt ∈ entries sdk_disk "/sdk/build-tools"
        ∧ (∀ n, n ∈ entries sdk_disk "/sdk/build-tools" →
                String.leb n bt = true)
        ∧ locate_build_tools (host sdk_disk None) "/sdk"
          = Ok (os_path.join "/sdk"
                  ["build-tools"; bt; "zipalign" +:+ exe_suffix (host sdk_disk None)],
                os_path.join "/sdk"
                  ["build-tools"; bt; "apksigner" +:+ exe_suffix (host sdk_disk None)])
        ∧ exe_suffix (host sdk_disk None)
          = (if decide (system (host sdk_disk None) = "Windows")
             then ".exe" else "")
        ∧ locate_build_tools (host sdk_disk None) "" = Ok ("zipalign", "apksigner")
        ∧ hd_error (sorted_reverse ["29.0.2"; "30.0.3"; "28.0.3"])
          = Some "30.0.3".
Proof.
  apply (build_tools_selection (host sdk_disk None) "/sdk"
           (entries sdk_disk "/sdk/build-tools"));
    [discriminate|reflexivity|by vm_compute].
Defined.

(** The tools of the SDK example, spelled out. *)
Example sdk_example_tools :
  locate_build_tools (host sdk_disk None) "/sdk"
  = Ok ("/sdk/build-tools/30.0.3/zipalign",
        "/sdk/build-tools/30.0.3/apksigner").
Proof. by vm_compute. Qed.

Lemma build_tools_counterexample :
  locate_build_tools (host sdk_disk_with_file None) "/sdk"
  = Ok ("/sdk/build-tools/notes.txt/zipalign",
        "/sdk/build-tools/notes.txt/apksigner")
  ∧ subdirectories sdk_disk_with_file "/sdk/build-tools" = ["30.0.3"]
  ∧ isdir_at sdk_disk_with_file "/sdk/build-tools/notes.txt" = false
  ∧ claimed_build_tools (host sdk_disk_with_file None) "/sdk"
    = Ok ("/sdk/build-tools/30.0.3/zipalign",
          "/sdk/build-tools/30.0.3/apksigner")
  ∧ locate_build_tools (host sdk_disk_with_file None) "/sdk"
    ≠ claimed_build_tools (host sdk_disk_with_file None) "/sdk".
Proof. repeat split; by vm_compute. Qed.

Lemma sdk_without_build_tools_witness :
  ∃ m' e, start_mode pack_no_build_tools = (m', Raise e)
          ∧ (e = FileNotFoundError (os_path.join "/sdk" ["build-tools"])
             ∨ e = IndexError)
          ∧ locate_build_tools (env pack_no_build_tools) "/sdk" = Raise e
          ∧ started (log m') = started (log pack_no_build_tools)
          ∧ process (ui m') = process (ui pack_no_build_tools)
          ∧ (in_flight pack_no_build_tools = false →
             ∀ sig sigs, deliver_all (sig :: sigs) m' = None).
Proof.
  apply (sdk_without_build_tools pack_no_build_tools "/x/MyApp" "/k.jks"
           "secret" "/sdk" "/usr/bin/apktool");
    try reflexivity; try discriminate.
  left. reflexivity.
Defined.

(** C3 (the code at the failing input). On the Keystore page of a
    fresh start, where the required output path is empty, [start_mode]
    shows no error box: it raises [KeyError] while reading the alias,
    and leaves the Run button disabled. *)
Theorem keystore_validation_raises :
  page (ui fresh_keystore) = KeystoreGen
  ∧ settings (ui fresh_keystore) !! "keystore_out" = Some ""
  ∧ snd (start_mode fresh_keystore) = Raise (KeyError "gen_alias")
  ∧ dialogs (log (fst (start_mode fresh_keystore))) = []
  ∧ run_enabled (ui (fst (start_mode fresh_keystore))) = false.
Proof. repeat split; by vm_compute. Qed.

(** C4 (the code at the failing input). The dictionary of [__init__]
    has no alias and no alias password; with the keystore output path
    chosen and no such keys in the configuration file, [start_mode] on
    the Keystore page raises [KeyError] and starts nothing. *)
Theorem alias_fields_absent :
  default_settings !! "gen_alias" = None
  ∧ default_settings !! "gen_alias_pass" = None
  ∧ settings (ui keystore_chosen) !! "keystore_out" = Some "/home/u/my.jks"
  ∧ settings (ui keystore_chosen) !! "gen_alias" = None
  ∧ snd (start_mode keystore_chosen) = Raise (KeyError "gen_alias")
  ∧ started (log (fst (start_mode keystore_chosen))) = [].
Proof. repeat split; by vm_compute. Qed.

(** C9 (the code at the failing input). At the end of a Pack run whose
    built package cannot be unlinked, the slot of the last "finished"
    signal raises the error of [os.remove]: nothing is logged after the
    completion box, the Run button stays disabled and the aligned
    package is not cleaned up. *)
Theorem cleanup_failure_escapes :
  let m := after pack_protected [Finished 0 NormalExit; Finished 0 NormalExit] in
  let r := deliver (Finished 0 NormalExit) m in
  in_flight m = true
  ∧ snd r = Raise (PermissionError "/x/MyApp.apk")
  ∧ last (log (fst r))
    = Some (MessageBox Information "Done" "All tasks completed")
  ∧ run_enabled (ui (fst r)) = false
  ∧ isfile_at (nodes (env (fst r))) "/x/aligned_MyApp.apk" = true.
Proof. repeat split; by vm_compute. Qed.


(** The page is read when the queue is found drained: a Pack run whose
    page was left before the end keeps its intermediate files. *)
Example page_left_before_the_end :
  removed (log pack_switched_end) = []
  ∧ isfile_at (nodes (env pack_switched_end)) "/x/MyApp.apk" = true
  ∧ isfile_at (nodes (env pack_switched_end)) "/x/aligned_MyApp.apk" = true
  ∧ run_enabled (ui pack_switched_end) = true.
Proof. repeat split; by vm_compute. Qed.

(** The disk at the end of the Pack example: the signed package only. *)
Example pack_example_disk :
  map_to_list (nodes (env (after pack_deletable all_succeed)))
  = [("/x/signed_MyApp.apk", File false)]
  ∧ removed (log (after pack_deletable all_succeed))
    = ["/x/MyApp.apk"; "/x/aligned_MyApp.apk"].
Proof. split; by vm_compute. Qed.


(** The effects of the two-command example, spelled out. *)
Example two_commands_log :
  log two_commands_end
  = [ConsoleAppend ">> apktool b p"; ProcessStart "apktool" ["b"; "p"];
     ConsoleAppend "I: Building";
     ConsoleAppend "[Finished] exitCode=0, status=0";
     ConsoleAppend ">> cmd /c z"; ProcessStart "cmd" ["/c"; "z"];
     ConsoleAppend "> Error : invalid start byte";
     ConsoleAppend "[Finished] exitCode=1, status=1";
     MessageBox Information "Done" "All tasks completed"].
Proof. by vm_compute. Qed.

End Concrete.
